(** * The two-phase upload-and-commit workflow of the admission portal

    A shallow embedding of

    - [api/src/modules/media/services/media.service.ts] (the upload URL
      broker, [MediaService]),
    - [website/front/src/app/[lang]/profile/rapport/page.tsx] (the report
      page: [checkApplicationStatus], [handleFileChange], [handleUpload],
      [handleButtonClick]),
    - [website/front/src/app/[lang]/application/form/application-form.tsx]
      (the application form: [onSubmit]),

    followed by the properties of the workflow.

    Asynchronous code is written in a small state-and-exception monad: a
    computation reads the world, appends the events it causes to a log and
    either resolves with a value or rejects with an error.  Everything the
    code cannot decide by itself (the answers of the network calls, the
    clock, the helpers of [@/lib/utils]) is a field of an environment. *)

From Stdlib Require Import ZArith String Ascii List DecimalString.
From stdpp Require Import base gmap strings list.
Import ListNotations.

Local Open Scope Z_scope.
Local Open Scope string_scope.

(* ================================================================== *)
(** * JavaScript values *)
(* ================================================================== *)

Module Js.

(** Values typed [any] in the sources: API responses, [userData]. *)
#[warnings="-register-all"] Inductive JsVal : Type :=
| JUndefined
| JNull
| JBool (b : bool)
| JNum (n : Z)
| JStr (s : string)
| JObj (fields : list (string * JsVal)).

(** A thrown value: an [Error] with its [name] and [message]. *)
Record JsError : Type := mkError { err_name : string; err_message : string }.

Definition Error (message : string) : JsError := mkError "Error" message.
Definition TypeError (message : string) : JsError := mkError "TypeError" message.

(** What an awaited promise settles to. *)
Inductive outcome (A : Type) : Type :=
| Resolved (a : A)
| Rejected (e : JsError).
Arguments Resolved {A} a.
Arguments Rejected {A} e.

(** [!!v]: [undefined], [null], [false], [0] and the empty string are falsy. *)
Definition truthy (v : JsVal) : bool :=
  match v with
  | JUndefined | JNull => false
  | JBool b => b
  | JNum n => negb (Z.eqb n 0)
  | JStr s => negb (String.eqb s "")
  | JObj _ => true
  end.

Fixpoint assoc (k : string) (l : list (string * JsVal)) : JsVal :=
  match l with
  | [] => JUndefined
  | (k', v) :: r => if String.eqb k k' then v else assoc k r
  end.

(** [v?.k]: [undefined] on [null] and [undefined], and on a primitive. *)
Definition get (v : JsVal) (k : string) : JsVal :=
  match v with
  | JObj fs => assoc k fs
  | _ => JUndefined
  end.

(** [v.k]: a [TypeError] on [null] and [undefined]. *)
Definition member (v : JsVal) (k : string) : outcome JsVal :=
  match v with
  | JUndefined =>
      Rejected (TypeError ("Cannot read properties of undefined (reading '" ++ k ++ "')"))
  | JNull =>
      Rejected (TypeError ("Cannot read properties of null (reading '" ++ k ++ "')"))
  | _ => Resolved (get v k)
  end.

Definition show_Z (n : Z) : string := NilZero.string_of_int (Z.to_int n).

(** [`${v}`] and [String(v)]. *)
Definition to_string (v : JsVal) : string :=
  match v with
  | JUndefined => "undefined"
  | JNull => "null"
  | JBool true => "true"
  | JBool false => "false"
  | JNum n => show_Z n
  | JStr s => s
  | JObj _ => "[object Object]"
  end.

(** [v === 200]. *)
Definition is_num (v : JsVal) (n : Z) : bool :=
  match v with
  | JNum m => Z.eqb m n
  | _ => false
  end.

(** [v === 'lit']. *)
Definition is_str (v : JsVal) (s : string) : bool :=
  match v with
  | JStr t => String.eqb t s
  | _ => false
  end.

(** [a ?? b]. *)
Definition nullish_or (a b : JsVal) : JsVal :=
  match a with
  | JUndefined | JNull => b
  | _ => a
  end.

(** [Array.prototype.includes] on an array of strings. *)
Definition includes (l : list string) (x : string) : bool :=
  existsb (String.eqb x) l.

(** [s.split('.').pop()]: what follows the last dot, all of [s] when it has
    none. *)
Fixpoint split_pop_from (seg s : string) : string :=
  match s with
  | EmptyString => seg
  | String c r =>
      if Ascii.eqb c "."%char then split_pop_from "" r
      else split_pop_from (seg ++ String c "") r
  end.

Definition split_pop (s : string) : string := split_pop_from "" s.

(** [hay.includes(needle)], as a proposition. *)
Definition occurs_in (needle hay : string) : Prop :=
  exists pre post, hay = pre ++ needle ++ post.

End Js.

Import Js.

(* ================================================================== *)
(** * The upload URL broker: [MediaService] *)
(* ================================================================== *)

Module MediaService.

Definition acceptedTypes : list string :=
  [ "image/png";
    "image/jpeg";
    "image/jpg";
    "image/png";
    "image/webp";
    "application/pdf" ].

Definition maxFileSize : Z := 1024 * 1024 * 15.

Record PutObjectCommand : Type := mkPutObjectCommand {
  put_Bucket : JsVal;
  put_Key : string;
  put_ContentType : string;
  put_ContentLength : Z;
  put_ChecksumSHA256 : string;
  put_Metadata_userId : string
}.

Record GetObjectCommand : Type := mkGetObjectCommand {
  get_Bucket : JsVal;
  get_Key : string
}.

(** A request handed to the presigner of the storage SDK, with its
    [expiresIn]. *)
Inductive SignRequest : Type :=
| SignPut (command : PutObjectCommand) (expiresIn : Z)
| SignGet (command : GetObjectCommand) (expiresIn : Z).

(** The injected collaborators: [configService.get] and the SDK's
    [getSignedUrl], which resolves with a URL or rejects. *)
Record Deps : Type := mkDeps {
  config_get : string -> JsVal;
  getSignedUrl : SignRequest -> outcome string
}.

(** [getSignedURL] returns the requests it had signed (in order) and what
    its promise settles to; [None] is the [null] it returns on rejection. *)
Definition getSignedURL (d : Deps) (userId : Z) (filename type : string)
    (size : Z) (checksum : string) : list SignRequest * outcome (option string) :=
  if negb (includes acceptedTypes type) then ([], Resolved None)
  else if Z.gtb size maxFileSize then ([], Resolved None)
  else
    let putObjectCommand :=
      {| put_Bucket := config_get d "AWS_BUCKET_NAME";
         put_Key := filename;
         put_ContentType := type;
         put_ContentLength := size;
         put_ChecksumSHA256 := checksum;
         put_Metadata_userId := show_Z userId |} in
    let req := SignPut putObjectCommand 60 in
    match getSignedUrl d req with
    | Resolved signedURL => ([req], Resolved (Some signedURL))
    | Rejected e => ([req], Rejected e)
    end.

Definition getPresignedFileUrl (d : Deps) (key : string)
    : list SignRequest * outcome string :=
  let command :=
    {| get_Bucket := config_get d "AWS_BUCKET_NAME"; get_Key := key |} in
  let req := SignGet command 3600 in
  ([req], getSignedUrl d req).

End MediaService.

(* ================================================================== *)
(** * The browser side: calls, events and the monad of handlers *)
(* ================================================================== *)

Module Front.

Record File : Type := mkFile {
  file_name : string;
  file_type : string;
  file_size : Z;
  file_content : list Byte.byte
}.

(** [new File([part], name, { type })]. *)
Definition new_File (part : File) (name type : string) : File :=
  {| file_name := name;
     file_type := type;
     file_size := file_size part;
     file_content := file_content part |}.

(** The awaited calls of [@/api/*] and [computeSHA256], with their
    arguments. *)
Inductive call : Type :=
| GetApplicationsOpenStatus
| ComputeSHA256 (file : File)
| GetSignedURL (key type : string) (size : Z) (checksum : JsVal)
| UploadFile (url : JsVal) (file : File)
| PostApplication (body : JsVal)
| PutApplication (id : JsVal) (fields : list (string * string))
| UpdateApplicationStatus (id : JsVal) (fields : list (string * string)).

Inductive level : Type := LLog | LWarn | LError.

(** What a handler does to the outside, in the order it does it.  A
    [Console] event keeps the level and the text of a console call, not its
    data arguments. *)
Inductive event : Type :=
| Called (c : call) (r : outcome JsVal)
| Toast (title description : string) (destructive : bool)
| Console (l : level) (text : string)
| ErrorDialog (e : JsError)
| InputCleared
| RouterPush (path : string)
| ReloadAfter (ms : Z).

(** The fields of the multi-step form that [onSubmit] reads. *)
Record FormData : Type := mkFormData {
  schoolCertificate : list File;
  grades : list File;
  otherFields : JsVal
}.

(** What the handlers depend on and do not define: the answer to the
    [n]-th interaction with the outside, the clock, and the helpers of
    [@/lib/utils]. *)
Record Env : Type := mkEnv {
  respond : nat -> call -> outcome JsVal;
  toISOString : nat -> string;
  generateFileName : nat -> string;
  getUploadFolderName : JsVal -> JsVal -> string;
  excludeFileFields : FormData -> JsVal
}.

(** The durable record of the applications, as far as [putApplication] and
    [updateApplicationStatus] write it: (entity id, field) to value. *)
Abbreviation Store := (gmap (string * string) string).

Definition write_fields (id : string) (fields : list (string * string))
    (s : Store) : Store :=
  fold_left (fun acc kv => <[(id, fst kv) := snd kv]> acc) fields s.

(** Modelled from the spec: the Application Record Committer, the server
    behind [putApplication] and [updateApplicationStatus], is not among the
    sources.  A call answered with status 200 has written its fields, the
    last write winning per field; any other answer, and a rejected call,
    has written nothing. *)
Definition committed (c : call) (r : outcome JsVal) (s : Store) : Store :=
  match c, r with
  | PutApplication id fields, Resolved v
  | UpdateApplicationStatus id fields, Resolved v =>
      if is_num (get v "statusCode") 200
      then write_fields (to_string id) fields s
      else s
  | _, _ => s
  end.

(** The world a handler runs in: the state of its component, the durable
    store, and the number of interactions with the outside so far. *)
Record World (U : Type) : Type := mkWorld {
  ui : U;
  store : Store;
  steps : nat
}.
Arguments mkWorld {U} ui store steps.
Arguments ui {U} w.
Arguments store {U} w.
Arguments steps {U} w.

Definition M (U A : Type) : Type := World U -> list event * World U * outcome A.

Section Monad.
Context {U : Type}.

Definition ret {A} (a : A) : M U A := fun w => ([], w, Resolved a).

Definition throw {A} (e : JsError) : M U A := fun w => ([], w, Rejected e).

Definition bind {A B} (m : M U A) (k : A -> M U B) : M U B := fun w =>
  match m w with
  | (l1, w1, Resolved a) =>
      match k a w1 with
      | (l2, w2, r) => ((l1 ++ l2)%list, w2, r)
      end
  | (l1, w1, Rejected e) => (l1, w1, Rejected e)
  end.

(** [try { m } catch (e) { h e }]. *)
Definition try_catch {A} (m : M U A) (h : JsError -> M U A) : M U A := fun w =>
  match m w with
  | (l1, w1, Resolved a) => (l1, w1, Resolved a)
  | (l1, w1, Rejected e) =>
      match h e w1 with
      | (l2, w2, r) => ((l1 ++ l2)%list, w2, r)
      end
  end.

(** [try { m } finally { f }]. *)
Definition finally {A} (m : M U A) (f : M U unit) : M U A := fun w =>
  match m w with
  | (l1, w1, r) =>
      match f w1 with
      | (l2, w2, Resolved _) => ((l1 ++ l2)%list, w2, r)
      | (l2, w2, Rejected e) => ((l1 ++ l2)%list, w2, Rejected e)
      end
  end.

Definition lift {A} (o : outcome A) : M U A := fun w => ([], w, o).

Definition emit (e : event) : M U unit := fun w => ([e], w, Resolved tt).

Definition get_ui : M U U := fun w => ([], w, Resolved (ui w)).

Definition set_ui (f : U -> U) : M U unit := fun w =>
  ([], mkWorld (f (ui w)) (store w) (steps w), Resolved tt).

(** [await c]: the outside answers, and the store holds what the answer
    says was written. *)
Definition await (env : Env) (c : call) : M U JsVal := fun w =>
  let r := respond env (steps w) c in
  ([Called c r], mkWorld (ui w) (committed c r (store w)) (S (steps w)), r).

(** [new Date().toISOString()]. *)
Definition now (env : Env) : M U string := fun w =>
  ([], mkWorld (ui w) (store w) (S (steps w)), Resolved (toISOString env (steps w))).

Definition fresh_name (env : Env) : M U string := fun w =>
  ([], mkWorld (ui w) (store w) (S (steps w)), Resolved (generateFileName env (steps w))).

Definition toast (title description : string) (destructive : bool) : M U unit :=
  emit (Toast title description destructive).

Definition console (l : level) (text : string) : M U unit :=
  emit (Console l text).

End Monad.

Declare Scope js_scope.
Delimit Scope js_scope with js.
Notation "x <- m ;; k" := (bind m (fun x => k))
  (at level 100, m at next level, right associativity) : js_scope.
Notation "m ;; k" := (bind m (fun _ => k))
  (at level 100, right associativity) : js_scope.
Local Open Scope js_scope.

(** The events of a run, the world it leaves, and how it settles. *)
Definition events {U A} (x : list event * World U * outcome A) : list event :=
  fst (fst x).
Definition world {U A} (x : list event * World U * outcome A) : World U :=
  snd (fst x).
Definition settled {U A} (x : list event * World U * outcome A) : outcome A :=
  snd x.

End Front.

Import Front.
Local Open Scope js_scope.

(* ================================================================== *)
(** * The report page: [profile/rapport/page.tsx] *)
(* ================================================================== *)

Module ReportPage.

(** The [useState] cells of [ReportPage] that the handlers read or write.
    [isApplicationsOpen] holds whatever [response.isOpen] was. *)
Record State : Type := mkState {
  content : JsVal;
  selectedFile : option File;
  uploading : bool;
  isApplicationsOpen : JsVal;
  isCheckingStatus : bool
}.

Definition initial : State :=
  {| content := JUndefined;
     selectedFile := None;
     uploading := false;
     isApplicationsOpen := JBool true;
     isCheckingStatus := true |}.

Definition setSelectedFile (f : option File) : M State unit :=
  set_ui (fun s => mkState (content s) f (uploading s) (isApplicationsOpen s) (isCheckingStatus s)).

Definition setUploading (b : bool) : M State unit :=
  set_ui (fun s => mkState (content s) (selectedFile s) b (isApplicationsOpen s) (isCheckingStatus s)).

Definition setIsApplicationsOpen (v : JsVal) : M State unit :=
  set_ui (fun s => mkState (content s) (selectedFile s) (uploading s) v (isCheckingStatus s)).

Definition setIsCheckingStatus (b : bool) : M State unit :=
  set_ui (fun s => mkState (content s) (selectedFile s) (uploading s) (isApplicationsOpen s) b).

Definition acceptedFileTypes : list string :=
  ["application/pdf"; "image/png"; "image/jpeg"; "image/jpg"].

Definition maxSizeInBytes : Z := 15 * 1024 * 1024.

(** The literal texts of the page. *)
Definition closed_title : string := "Soumissions fermées".
Definition closed_description : string :=
  "Les candidatures sont actuellement fermées. Vous ne pouvez pas soumettre de devoir maison.".
Definition failure_title : string := "Erreur lors de l'envoi".
Definition failure_default : string :=
  "Une erreur est survenue lors de l'envoi du fichier. Veuillez réessayer ou contacter le support si le problème persiste.".
Definition success_title : string := "Travail envoyé avec succès".
Definition no_url_message : string :=
  "Impossible d'obtenir une URL de téléchargement. Veuillez réessayer ou contacter le support.".
Definition bad_upload_message : string :=
  "S3 upload validation failed - unexpected response format".

(** The message thrown when the file is stored and the record is not. *)
Definition urgent_message (statusCode firstName lastName : JsVal)
    (timestamp : string) : string :=
  "URGENT: File uploaded successfully to S3 but database update failed (Status: "
  ++ to_string statusCode
  ++ "). Your file is safe in S3. Please contact support immediately with your name: "
  ++ to_string firstName ++ " " ++ to_string lastName
  ++ " and this timestamp: " ++ timestamp.

Section Handlers.
Variable env : Env.
Variable userData : JsVal.

(** The effect run once when the page mounts. *)
Definition checkApplicationStatus : M State unit :=
  setIsCheckingStatus true ;;
  finally
    (try_catch
       (response <- await env GetApplicationsOpenStatus ;;
        if is_num (get response "statusCode") 200
        then setIsApplicationsOpen (get response "isOpen")
        else setIsApplicationsOpen (JBool false))
       (fun error =>
          console LError "Failed to check application status" ;;
          setIsApplicationsOpen (JBool false)))
    (setIsCheckingStatus false).

(** [files] is [event.target.files]: [None] for [null]. *)
Definition handleFileChange (files : option (list File)) : M State unit :=
  match files with
  | Some (file :: _) =>
      if negb (includes acceptedFileTypes (file_type file)) then
        toast "Format de fichier non valide"
              "Veuillez choisir un fichier PDF ou une image (JPG, PNG)" true ;;
        emit InputCleared
      else if Z.gtb (file_size file) maxSizeInBytes then
        toast "Fichier trop volumineux"
              "La taille du fichier ne doit pas dépasser 15 Mo" true ;;
        emit InputCleared
      else setSelectedFile (Some file)
  | _ => ret tt
  end.

(** The [try] block of [handleUpload]. *)
Definition upload_and_record (selected : File) : M State unit :=
  firstName <- lift (member userData "firstName") ;;
  lastName <- lift (member userData "lastName") ;;
  let uploadFolderName := getUploadFolderName env firstName lastName in
  generated <- fresh_name env ;;
  let fileName := "report_" ++ generated ++ "." ++ split_pop (file_name selected) in
  let file := new_File selected fileName (file_type selected) in
  checksum <- await env (ComputeSHA256 file) ;;
  signedURLResponse <-
    await env (GetSignedURL ("upload_mtym/" ++ uploadFolderName ++ "/" ++ file_name file)
                            (file_type file) (file_size file) checksum) ;;
  console LLog "Signed URL response:" ;;
  if negb (truthy signedURLResponse) || negb (truthy (get signedURLResponse "url")) then
    console LError "Failed to get signed URL - Response: " ;;
    throw (Error no_url_message)
  else
    console LLog ("Starting S3 upload for file: " ++ file_name file) ;;
    uploadResponse <- await env (UploadFile (get signedURLResponse "url") file) ;;
    if negb (truthy uploadResponse) || negb (truthy (get uploadResponse "success")) then
      throw (Error bad_upload_message)
    else
      console LLog ("✅ S3 upload verified successful for file: " ++ file_name file) ;;
      let reportUrl := "upload_mtym/" ++ uploadFolderName ++ "/" ++ file_name file in
      console LLog ("Updating database with reportUrl: " ++ reportUrl) ;;
      response <-
        await env (PutApplication (get (get userData "application") "id")
                                  [("reportUrl", reportUrl)]) ;;
      console LLog "Database update response:" ;;
      if is_num (get response "statusCode") 200 then
        console LLog "✅ Database update successful - Report URL saved" ;;
        let currentReportStatus :=
          get (get (get userData "application") "status") "reportStatus" in
        console LLog ("Current report status: " ++ to_string currentReportStatus) ;;
        try_catch
          (statusResponse <-
             await env (UpdateApplicationStatus (get (get userData "application") "id")
                                                [("reportStatus", "PENDING")]) ;;
           console LLog "Status update response:" ;;
           if is_num (get statusResponse "statusCode") 200
           then console LLog "✅ Report status reset to PENDING successfully"
           else console LWarn "⚠️ Failed to reset report status, but file upload was successful")
          (fun statusError => console LError "❌ Error resetting report status:") ;;
        toast success_title
              (if is_str currentReportStatus "VALID"
               then "Votre travail a été mis à jour et est maintenant en cours d'examen"
               else "Votre travail a été téléchargé et sera examiné par notre équipe")
              false ;;
        emit (ReloadAfter 1500)
      else
        timestamp <- now env ;;
        console LError "❌ DATABASE UPDATE FAILED - FILE IS IN S3 BUT NOT RECORDED:" ;;
        throw (Error (urgent_message (get response "statusCode")
                                     (get userData "firstName") (get userData "lastName")
                                     timestamp)).

(** The [catch] block of [handleUpload]; [error.message || ...]. *)
Definition report_failure (error : JsError) : M State unit :=
  timestamp <- now env ;;
  console LError "❌ UPLOAD PROCESS FAILED - Complete error details:" ;;
  toast failure_title
        (if String.eqb (err_message error) "" then failure_default else err_message error)
        true.

Definition handleUpload : M State unit :=
  st <- get_ui ;;
  if negb (truthy (isApplicationsOpen st)) then
    toast closed_title closed_description true
  else
    match selectedFile st with
    | None =>
        toast "Aucun fichier sélectionné"
              "Veuillez sélectionner un fichier avant de l'envoyer" true
    | Some selected =>
        setUploading true ;;
        finally (try_catch (upload_and_record selected) report_failure)
                (setUploading false)
    end.

(** [userData?.locale || 'fr']. *)
Definition locale : string :=
  if truthy (get userData "locale") then to_string (get userData "locale") else "fr".

Definition handleButtonClick : M State unit :=
  st <- get_ui ;;
  if truthy (get (content st) "redirectToApplication") then
    emit (RouterPush ("/" ++ locale ++ "/profile/application"))
  else if truthy (isApplicationsOpen st) then
    handleUpload
  else
    toast closed_title "Les candidatures sont actuellement fermées." true.

End Handlers.

(** ** What the page shows *)

Definition getBadgeClassname (status : JsVal) : string :=
  if is_str status "VALID" then "bg-[#79F2C0] text-black"
  else if is_str status "NOT_VALID" then "bg-[#BF2600] text-white"
  else if is_str status "PENDING" then "bg-yellow-200 text-black"
  else "bg-gray-300 text-black".

(** The text of the badge, from the same [reportStatus]. *)
Definition badgeLabel (reportStatus : JsVal) : string :=
  if is_str reportStatus "VALID" then "VALIDÉ"
  else if is_str reportStatus "NOT_VALID" then "NON VALIDÉ"
  else "EN ATTENTE".

(** [v !== undefined]. *)
Definition defined (v : JsVal) : bool :=
  match v with
  | JUndefined => false
  | _ => true
  end.

(** [Boolean(userData?.application &&
              userData?.application?.status?.status !== 'DRAFT')]. *)
Definition hasSubmittedApplication (userData : JsVal) : bool :=
  truthy (get userData "application")
  && negb (is_str (get (get (get userData "application") "status") "status") "DRAFT").

(** The object literals handed to [setContent]. *)
Definition plain_content (title subtitle ctaLabel : string) : JsVal :=
  JObj [("title", JStr title); ("subtitle", JStr subtitle); ("ctaLabel", JStr ctaLabel)].

Definition redirect_content (title subtitle ctaLabel : string) (redirect : bool) : JsVal :=
  JObj [("title", JStr title); ("subtitle", JStr subtitle); ("ctaLabel", JStr ctaLabel);
        ("redirectToApplication", JBool redirect)].

Definition closed_label : string := "Soumission fermée".
Definition update_label : string := "Mettre à jour votre devoir maison".

(** The argument of [setContent] in the effect on
    [userData, isApplicationsOpen, isCheckingStatus]. *)
Definition selectContent (userData open : JsVal) : JsVal :=
  if negb (hasSubmittedApplication userData) then
    redirect_content
      "Vous devez d'abord soumettre votre candidature"
      "Veuillez compléter et soumettre votre candidature avant de pouvoir envoyer votre travail."
      "Accéder à ma candidature" true
  else
    let application := get userData "application" in
    let reportStatus :=
      if truthy (get (get application "status") "reportStatus")
      then get (get application "status") "reportStatus"
      else JStr "PENDING" in
    let hasReport := truthy (get application "reportUrl") in
    if negb hasReport then
      if negb (truthy open) then
        redirect_content
          "Les soumissions des devoirs sont fermés"
          "Les candidatures sont actuellement fermées, vous ne pouvez donc pas soumettre votre travailt pour le moment."
          closed_label false
      else
        plain_content
          "Vous n'avez pas encore envoyé de devoir maison"
          "Veuillez envoyer votre devoir maison en cliquant sur le bouton ci-dessous."
          "Envoyer votre devoir maison"
    else if is_str reportStatus "VALID" then
      plain_content
        "Votre travail a été approuvé"
        "Votre travail a été validé. Si vous soumettez un nouveau fichier, le statut sera remis à 'En attente' pour réévaluation."
        update_label
    else if is_str reportStatus "NOT_VALID" then
      if negb (truthy open) then
        plain_content
          "Votre travail n'a pas été approuvé"
          "Votre travail n'a pas été validé. Les soumissions sont actuellement fermées, vous ne pouvez pas le mettre à jour."
          closed_label
      else
        plain_content
          "Votre travail n'a pas été approuvé"
          "Votre travail n'a pas été validé. Veuillez le mettre à jour et le soumettre à nouveau."
          update_label
    else
      if negb (truthy open) then
        plain_content
          "Votre devoir maison est en cours d'examen"
          "Votre devoir maison a été envoyé et est en cours d'examen. Les soumissions sont actuellement fermées, vous ne pouvez pas le mettre à jour."
          closed_label
      else
        plain_content
          "Votre devoir maison est en cours d'examen"
          "Votre devoir maison a été envoyé et est en cours d'examen par notre équipe."
          update_label.

(** The effect itself.  It touches no one outside: it is a function of the
    [isLoading] cell and the state, to the cells it leaves. *)
Definition contentEffect (userData : JsVal) (isLoading : bool) (st : State) : bool * State :=
  (if defined userData && negb (isCheckingStatus st) then false else isLoading,
   mkState (selectContent userData (isApplicationsOpen st)) (selectedFile st)
           (uploading st) (isApplicationsOpen st) (isCheckingStatus st)).

(** [isLoading || userData === undefined || isCheckingStatus]: the
    skeleton is shown in place of the page. *)
Definition showsSkeleton (userData : JsVal) (isLoading : bool) (st : State) : bool :=
  isLoading || negb (defined userData) || isCheckingStatus st.

(** [!content?.redirectToApplication && isApplicationsOpen]: the file
    picker is rendered. *)
Definition showsPicker (st : State) : bool :=
  negb (truthy (get (content st) "redirectToApplication"))
  && truthy (isApplicationsOpen st).

(** The [disabled] attribute of the submit button. *)
Definition buttonDisabled (st : State) : bool :=
  (negb (truthy (isApplicationsOpen st))
   && negb (truthy (get (content st) "redirectToApplication")))
  || uploading st
  || (match selectedFile st with Some _ => false | None => true end
      && negb (truthy (get (content st) "redirectToApplication"))).

End ReportPage.

(* ================================================================== *)
(** * The application form: [application/form/application-form.tsx] *)
(* ================================================================== *)

Module ApplicationForm.

(** The [useState] cells that [onSubmit] writes. *)
Record State : Type := mkState {
  isFormLoading : bool;
  error : option JsError;
  showErrorDialog : bool
}.

Definition initial : State :=
  {| isFormLoading := false; error := None; showErrorDialog := false |}.

Definition setIsFormLoading (b : bool) : M State unit :=
  set_ui (fun s => mkState b (error s) (showErrorDialog s)).

Definition setError (e : JsError) : M State unit :=
  set_ui (fun s => mkState (isFormLoading s) (Some e) (showErrorDialog s)).

(** Opening the dialog shows the error to the user. *)
Definition setShowErrorDialog (e : JsError) : M State unit :=
  set_ui (fun s => mkState (isFormLoading s) (error s) true) ;;
  emit (ErrorDialog e).

Definition created_title : string := "Application created with success".
Definition created_description : string :=
  "You can access your current application in your profile page".

(** [files[0]] followed by a property read: a [TypeError] on an empty list. *)
Definition first_file (files : list File) : outcome File :=
  match files with
  | f :: _ => Resolved f
  | [] => Rejected (TypeError "Cannot read properties of undefined (reading 'name')")
  end.

Section Handlers.
Variable env : Env.
Variable userData : JsVal.

(** The body of [for (const file of files)]. *)
Definition upload_one (uploadFolderName : string) (file : File) : M State unit :=
  checksum <- await env (ComputeSHA256 file) ;;
  signedURLResponse <-
    await env (GetSignedURL ("upload_mtym/" ++ uploadFolderName ++ "/" ++ file_name file)
                            (file_type file) (file_size file) checksum) ;;
  if negb (truthy (get signedURLResponse "url")) then
    throw (Error ("Failed to get signed URL for " ++ file_name file))
  else
    console LLog ("Starting S3 upload for application file: " ++ file_name file) ;;
    uploadResponse <- await env (UploadFile (get signedURLResponse "url") file) ;;
    if negb (truthy uploadResponse) || negb (truthy (get uploadResponse "success")) then
      throw (Error ("S3 upload validation failed for " ++ file_name file
                    ++ " - unexpected response format"))
    else
      console LLog ("✅ S3 upload verified successful for application file: "
                    ++ file_name file).

Fixpoint upload_each (uploadFolderName : string) (files : list File) : M State unit :=
  match files with
  | [] => ret tt
  | file :: rest => upload_one uploadFolderName file ;; upload_each uploadFolderName rest
  end.

(** [files[i].name] in the [putApplication] payload. *)
Definition name_at (files : list File) (i : nat) : outcome string :=
  match nth_error files i with
  | Some f => Resolved (file_name f)
  | None => Rejected (TypeError "Cannot read properties of undefined (reading 'name')")
  end.

(** [userData?.locale || 'fr']. *)
Definition locale : string :=
  if truthy (get userData "locale") then to_string (get userData "locale") else "fr".

(** The [try] block of [onSubmit]. *)
Definition post_upload_record (formData : FormData) (uploadFolderName : string)
    (files : list File) : M State unit :=
  applicationResponse <- await env (PostApplication (excludeFileFields env formData)) ;;
  if negb (is_num (get applicationResponse "statusCode") 200) then
    throw (Error (to_string (nullish_or (get applicationResponse "message")
                                        (JStr "Post of application failed"))))
  else
    let applicationId := get applicationResponse "id" in
    upload_each uploadFolderName files ;;
    name0 <- lift (name_at files 0) ;;
    name1 <- lift (name_at files 1) ;;
    _ <- await env (PutApplication applicationId
           [("schoolCertificateUrl", "upload_mtym/" ++ uploadFolderName ++ "/" ++ name0);
            ("gradesUrl", "upload_mtym/" ++ uploadFolderName ++ "/" ++ name1)]) ;;
    _ <- await env (UpdateApplicationStatus applicationId
           [("status",
             if is_str (get (get (get userData "application") "status") "status") "NOTIFIED"
             then "UPDATED" else "PENDING")]) ;;
    toast created_title created_description false ;;
    emit (RouterPush ("/" ++ locale ++ "/profile/application")) ;;
    emit (ReloadAfter 1000).

Definition onSubmit (formData : FormData) : M State unit :=
  setIsFormLoading true ;;
  firstName <- lift (member userData "firstName") ;;
  lastName <- lift (member userData "lastName") ;;
  let uploadFolderName := getUploadFolderName env firstName lastName in
  generated0 <- fresh_name env ;;
  generated1 <- fresh_name env ;;
  let uploadFileNames :=
    ("school_certificate_" ++ generated0, "grades_" ++ generated1) in
  part0 <- lift (first_file (schoolCertificate formData)) ;;
  part1 <- lift (first_file (grades formData)) ;;
  let files :=
    [ new_File part0 (fst uploadFileNames ++ "." ++ split_pop (file_name part0))
               (file_type part0);
      new_File part1 (snd uploadFileNames ++ "." ++ split_pop (file_name part1))
               (file_type part1) ] in
  finally
    (try_catch (post_upload_record formData uploadFolderName files)
               (fun err => setError err ;; setShowErrorDialog err))
    (setIsFormLoading false).

End Handlers.

Section SaveHandlers.
Variable env : Env.
Variable userData : JsVal.

(** [application] is what [form.watch()] returns. *)
Definition onSave (application : FormData) : M State unit :=
  try_catch
    (applicationResponse <- await env (PostApplication (excludeFileFields env application)) ;;
     if negb (is_num (get applicationResponse "statusCode") 200) then
       throw (Error (to_string (nullish_or (get applicationResponse "message")
                                           (JStr "Post of application failed"))))
     else
       toast "Application saved successfully" created_description false ;;
       emit (RouterPush ("/" ++ locale userData ++ "/profile/application")) ;;
       emit (ReloadAfter 1000))
    (fun err => setError err ;; setShowErrorDialog err).

Definition onError : M State unit :=
  toast "The form is invalid" "Not all required fields have been filled in." true.

End SaveHandlers.

End ApplicationForm.

(* ================================================================== *)
(** * Reading a run: calls, terminal state *)
(* ================================================================== *)

Module Workflow.

(** Why a run failed, after the step that was under way. *)
Inductive Reason : Type :=
| Refused
| PostFailed
| ChecksumFailed
| AuthorizationDenied
| UploadFailed
| OrphanedUpload
| StatusResetFailed.

Inductive Terminal : Type :=
| Unsettled
| Done
| Failed (reason : Reason).

(** The step a call belongs to; a failure shown to the user is charged to
    the last call made ([Refused] when none was). *)
Definition step_of (c : call) : Reason :=
  match c with
  | GetApplicationsOpenStatus => Refused
  | PostApplication _ => PostFailed
  | ComputeSHA256 _ => ChecksumFailed
  | GetSignedURL _ _ _ _ => AuthorizationDenied
  | UploadFile _ _ => UploadFailed
  | PutApplication _ _ => OrphanedUpload
  | UpdateApplicationStatus _ _ => StatusResetFailed
  end.

(** The outcome the user is shown: the last toast or error dialog decides;
    a destructive toast and the error dialog are failures. *)
Fixpoint observe (step : Reason) (verdict : Terminal) (l : list event) : Terminal :=
  match l with
  | [] => verdict
  | Called c _ :: l' => observe (step_of c) verdict l'
  | Toast _ _ true :: l' => observe step (Failed step) l'
  | Toast _ _ false :: l' => observe step Done l'
  | ErrorDialog _ :: l' => observe step (Failed step) l'
  | _ :: l' => observe step verdict l'
  end.

Definition terminal (l : list event) : Terminal := observe Refused Unsettled l.

(** The calls of a run, in order. *)
Fixpoint calls (l : list event) : list call :=
  match l with
  | [] => []
  | Called c _ :: l' => c :: calls l'
  | _ :: l' => calls l'
  end.

Definition is_record_write (c : call) : bool :=
  match c with
  | PutApplication _ _ | UpdateApplicationStatus _ _ => true
  | _ => false
  end.

(** The record commits and status updates a run attempted. *)
Definition record_writes (l : list event) : list call :=
  List.filter is_record_write (calls l).

(** The object keys for which an upload authorization was requested. *)
Fixpoint requested_keys (l : list event) : list string :=
  match l with
  | [] => []
  | Called (GetSignedURL key _ _ _) _ :: l' => key :: requested_keys l'
  | _ :: l' => requested_keys l'
  end.

(** What is put before the user: toasts and the error dialog. *)
Fixpoint notifications (l : list event) : list event :=
  match l with
  | [] => []
  | Toast t d k :: l' => Toast t d k :: notifications l'
  | ErrorDialog e :: l' => ErrorDialog e :: notifications l'
  | _ :: l' => notifications l'
  end.

(** [response?.statusCode === 200]. *)
Definition status_200 (r : outcome JsVal) : bool :=
  match r with
  | Resolved v => is_num (get v "statusCode") 200
  | Rejected _ => false
  end.

(** The executor reported success: the promise resolved with a truthy
    value whose [success] is truthy. *)
Definition upload_ok (r : outcome JsVal) : bool :=
  match r with
  | Resolved v => truthy v && truthy (get v "success")
  | Rejected _ => false
  end.

End Workflow.

Import Workflow.

(* ================================================================== *)
(** * Sample inputs *)
(* ================================================================== *)

Module Samples.

(** A presigner that signs everything. *)
Definition deps : MediaService.Deps :=
  {| MediaService.config_get := fun _ => JStr "fma-bucket";
     MediaService.getSignedUrl := fun req =>
       match req with
       | MediaService.SignPut c _ =>
           Resolved ("https://s3.example/" ++ MediaService.put_Key c ++ "?X-Amz-Signature=put")
       | MediaService.SignGet c _ =>
           Resolved ("https://s3.example/" ++ MediaService.get_Key c ++ "?X-Amz-Signature=get")
       end |}.

Definition pdf : File :=
  {| file_name := "devoir.maison.pdf";
     file_type := "application/pdf";
     file_size := 4;
     file_content := [Byte.x25; Byte.x50; Byte.x44; Byte.x46] |}.

Definition webp : File :=
  {| file_name := "photo.webp";
     file_type := "image/webp";
     file_size := 4;
     file_content := [Byte.x52; Byte.x49; Byte.x46; Byte.x46] |}.

Definition png : File :=
  {| file_name := "notes.png";
     file_type := "image/png";
     file_size := 4;
     file_content := [Byte.x89; Byte.x50; Byte.x4e; Byte.x47] |}.

(** A candidate whose report had been validated. *)
Definition amina : JsVal :=
  JObj [("id", JNum 12);
        ("firstName", JStr "Amina");
        ("lastName", JStr "Idrissi");
        ("email", JStr "amina@example.org");
        ("application",
         JObj [("id", JNum 7);
               ("reportUrl", JStr "upload_mtym/Amina_Idrissi/report_old.pdf");
               ("status", JObj [("status", JStr "PENDING");
                                ("reportStatus", JStr "VALID")])])].

Definition answer (statusCode : Z) : JsVal := JObj [("statusCode", JNum statusCode)].

(** What the outside answers to each kind of call. *)
Record Script : Type := mkScript {
  on_open : outcome JsVal;
  on_upload : outcome JsVal;
  on_put : outcome JsVal;
  on_update : outcome JsVal
}.

Definition env_of (s : Script) : Env :=
  {| respond := fun _ c =>
       match c with
       | GetApplicationsOpenStatus => on_open s
       | ComputeSHA256 _ => Resolved (JStr "q83vEjRWeJA=")
       | GetSignedURL key _ _ _ =>
           Resolved (JObj [("url", JStr ("https://s3.example/" ++ key))])
       | UploadFile _ _ => on_upload s
       | PostApplication _ => Resolved (JObj [("statusCode", JNum 200); ("id", JNum 7)])
       | PutApplication _ _ => on_put s
       | UpdateApplicationStatus _ _ => on_update s
       end;
     toISOString := fun _ => "2025-03-01T10:15:00.000Z";
     generateFileName := fun n => "g" ++ show_Z (Z.of_nat n);
     getUploadFolderName := fun a b => to_string a ++ "_" ++ to_string b;
     excludeFileFields := otherFields |}.

Definition all_well : Script :=
  {| on_open := Resolved (JObj [("statusCode", JNum 200); ("isOpen", JBool true)]);
     on_upload := Resolved (JObj [("success", JBool true)]);
     on_put := Resolved (answer 200);
     on_update := Resolved (answer 200) |}.

Definition network_error : outcome JsVal := Rejected (Error "Network Error").

Definition upload_breaks : Script :=
  mkScript (on_open all_well) network_error (on_put all_well) (on_update all_well).

Definition commit_refused : Script :=
  mkScript (on_open all_well) (on_upload all_well) (Resolved (answer 500)) (on_update all_well).

Definition reset_refused : Script :=
  mkScript (on_open all_well) (on_upload all_well) (on_put all_well) (Resolved (answer 500)).

Definition reset_throws : Script :=
  mkScript (on_open all_well) (on_upload all_well) (on_put all_well) network_error.

Definition settings_down : Script :=
  mkScript (Resolved (answer 503)) (on_upload all_well) (on_put all_well) (on_update all_well).

(** The report page with a file chosen, for an application whose report
    status is VALID. *)
Definition report_world : World ReportPage.State :=
  mkWorld
    {| ReportPage.content := JObj [("ctaLabel", JStr "Mettre à jour votre devoir maison")];
       ReportPage.selectedFile := Some pdf;
       ReportPage.uploading := false;
       ReportPage.isApplicationsOpen := JBool true;
       ReportPage.isCheckingStatus := false |}
    (<[("7", "reportStatus") := "VALID"]> ∅)
    0.

(** The report page as it mounts. *)
Definition mounting_world : World ReportPage.State :=
  mkWorld ReportPage.initial (<[("7", "reportStatus") := "VALID"]> ∅) 0.

Definition form : FormData :=
  {| schoolCertificate := [pdf]; grades := [png]; otherFields := JObj [("city", JStr "Rabat")] |}.

Definition form_world : World ApplicationForm.State :=
  mkWorld ApplicationForm.initial ∅ 0.

End Samples.

(* ================================================================== *)
(** * Reading a run, continued *)
(* ================================================================== *)

Module Checks.

(** The guard of [handleUpload] on the answer of [getSignedURL] lets it
    through: [!signedURLResponse || !signedURLResponse.url] is false. *)
Definition authorized (r : outcome JsVal) : bool :=
  match r with
  | Resolved v => truthy v && truthy (get v "url")
  | Rejected _ => false
  end.

Definition same_step (a b : Reason) : bool :=
  match a, b with
  | Refused, Refused
  | PostFailed, PostFailed
  | ChecksumFailed, ChecksumFailed
  | AuthorizationDenied, AuthorizationDenied
  | UploadFailed, UploadFailed
  | OrphanedUpload, OrphanedUpload
  | StatusResetFailed, StatusResetFailed => true
  | _, _ => false
  end.

(** What the calls of one step were answered, call after call: the
    answers of [uploadFile] are [answers_at UploadFailed], those of
    [putApplication] [answers_at OrphanedUpload], and so on. *)
Fixpoint answers_at (step : Reason) (l : list event) : list (outcome JsVal) :=
  match l with
  | [] => []
  | Called c r :: l' =>
      if same_step (step_of c) step then r :: answers_at step l' else answers_at step l'
  | _ :: l' => answers_at step l'
  end.

(** The calls of a run, each with what it was answered. *)
Fixpoint exchanges (l : list event) : list (call * outcome JsVal) :=
  match l with
  | [] => []
  | Called c r :: l' => (c, r) :: exchanges l'
  | _ :: l' => exchanges l'
  end.

(** [s.includes('.')]. *)
Fixpoint has_dot (s : string) : bool :=
  match s with
  | EmptyString => false
  | String c r => Ascii.eqb c "."%char || has_dot r
  end.

(** [userData] is [null] or [undefined]: reading a property of it throws. *)
Definition nullish (v : JsVal) : bool :=
  match v with
  | JUndefined | JNull => true
  | _ => false
  end.

End Checks.

Import Checks.

(* ================================================================== *)
(** * More sample inputs *)
(* ================================================================== *)

Module MoreSamples.
Import Samples.

(** The outside of [env], except that [getSignedURL] answers [answer]. *)
Definition signing (answer : outcome JsVal) (env : Env) : Env :=
  {| respond := fun n c =>
       match c with
       | GetSignedURL _ _ _ _ => answer
       | _ => respond env n c
       end;
     toISOString := toISOString env;
     generateFileName := generateFileName env;
     getUploadFolderName := getUploadFolderName env;
     excludeFileFields := excludeFileFields env |}.

(** The outside of [env], except that [postApplication] answers [answer]. *)
Definition posting (answer : outcome JsVal) (env : Env) : Env :=
  {| respond := fun n c =>
       match c with
       | PostApplication _ => answer
       | _ => respond env n c
       end;
     toISOString := toISOString env;
     generateFileName := generateFileName env;
     getUploadFolderName := getUploadFolderName env;
     excludeFileFields := excludeFileFields env |}.

Definition commit_throws : Script :=
  mkScript (on_open all_well) (on_upload all_well) network_error (on_update all_well).

(** The report page with no file chosen. *)
Definition empty_handed : World ReportPage.State :=
  mkWorld
    {| ReportPage.content := ReportPage.content (ui report_world);
       ReportPage.selectedFile := None;
       ReportPage.uploading := false;
       ReportPage.isApplicationsOpen := JBool true;
       ReportPage.isCheckingStatus := false |}
    (store report_world) 0.

(** A candidate who has not started an application. *)
Definition newcomer : JsVal :=
  JObj [("id", JNum 13); ("firstName", JStr "Yassine"); ("lastName", JStr "Alaoui")].

(** A file above the ceiling of the picker. *)
Definition scan : File :=
  {| file_name := "scan.pdf";
     file_type := "application/pdf";
     file_size := 15728641;
     file_content := [Byte.x25; Byte.x50; Byte.x44; Byte.x46] |}.

End MoreSamples.

(* ================================================================== *)
(** * Properties of the broker *)
(* ================================================================== *)

Section Broker.
Import MediaService.

Lemma includes_In (l : list string) (x : string) :
  includes l x = true <-> In x l.
Proof.
  unfold includes. rewrite existsb_exists. split.
  - intros [y [Hy E]]. apply String.eqb_eq in E. now subst.
  - intros H. exists x. split; [assumption | apply String.eqb_refl].
Qed.

Lemma includes_not_In (l : list string) (x : string) :
  includes l x = false <-> ~ In x l.
Proof.
  rewrite <- includes_In. destruct (includes l x); split; intros; congruence.
Qed.

Lemma maxFileSize_bytes : maxFileSize = 15728640.
Proof. reflexivity. Qed.

(** C5, as it is stated, fails: the answer to a type outside the accepted
    set signals nothing.  For a zip archive of 1024 bytes [getSignedURL]
    resolves with [null], the very answer it gives for a PDF (an accepted
    type) one byte above the ceiling; whatever a caller reads from the
    answer, it reads the same from both, so no reading of it says
    [UnsupportedType] for the one and [PayloadTooLarge] for the other. *)
Lemma unaccepted_type_is_not_signalled :
  let unsupported :=
    getSignedURL Samples.deps 42 "upload_mtym/a_b/report_1.zip" "application/zip"
                 1024 "q83vEjRWeJA=" in
  let oversized :=
    getSignedURL Samples.deps 42 "upload_mtym/a_b/report_1.pdf" "application/pdf"
                 15728641 "q83vEjRWeJA=" in
  ~ In "application/zip" acceptedTypes /\
  (In "application/pdf" acceptedTypes /\ 15728640 < 15728641) /\
  unsupported = ([], Resolved None) /\
  oversized = unsupported /\
  forall (Signal : Type)
         (read : list SignRequest * outcome (option string) -> Signal),
    read unsupported = read oversized.
Proof.
  intros unsupported oversized.
  split; [apply includes_not_In; reflexivity |].
  split; [split; [apply includes_In; reflexivity | lia] |].
  split; [reflexivity |]. split; [reflexivity |].
  intros Signal read. reflexivity.
Qed.

(** C5 (amended): for every contentType outside the accepted set,
    [getSignedURL] resolves with [null], whatever the size, and hands
    nothing to the presigner: no upload authorization is minted.  The
    answer names no reason: it is the answer given to every request above
    the size ceiling, whatever its type. *)
Theorem getSignedURL_rejects_unaccepted_type
    (d : Deps) (userId : Z) (filename type : string) (size : Z) (checksum : string) :
  ~ In type acceptedTypes ->
  getSignedURL d userId filename type size checksum = ([], Resolved None) /\
  forall (userId' : Z) (filename' type' : string) (size' : Z) (checksum' : string),
    15728640 < size' ->
    getSignedURL d userId' filename' type' size' checksum' =
      getSignedURL d userId filename type size checksum.
Proof.
  intros H. apply includes_not_In in H.
  assert (E : getSignedURL d userId filename type size checksum = ([], Resolved None)).
  { unfold getSignedURL. now rewrite H. }
  split; [exact E |].
  intros userId' filename' type' size' checksum' Hsize. rewrite E.
  unfold getSignedURL.
  destruct (negb (includes acceptedTypes type')); [reflexivity |].
  rewrite maxFileSize_bytes.
  destruct (Z.gtb_spec size' 15728640); [reflexivity | lia].
Qed.

Lemma getSignedURL_rejects_unaccepted_type_witness :
  ~ In "application/zip" acceptedTypes /\
  getSignedURL Samples.deps 42 "upload_mtym/a_b/report_1.zip" "application/zip"
               1024 "q83vEjRWeJA=" = ([], Resolved None) /\
  (15728640 < 15728641 ->
   getSignedURL Samples.deps 42 "upload_mtym/a_b/report_1.pdf" "application/pdf"
                15728641 "q83vEjRWeJA="
   = getSignedURL Samples.deps 42 "upload_mtym/a_b/report_1.zip" "application/zip"
                  1024 "q83vEjRWeJA=").
Proof.
  assert (H : ~ In "application/zip" acceptedTypes).
  { apply includes_not_In. reflexivity. }
  destruct (getSignedURL_rejects_unaccepted_type Samples.deps 42
              "upload_mtym/a_b/report_1.zip" "application/zip" 1024 "q83vEjRWeJA=" H)
    as [E Hsame].
  split; [exact H |]. split; [exact E |].
  exact (Hsame 42 "upload_mtym/a_b/report_1.pdf" "application/pdf" 15728641
               "q83vEjRWeJA=").
Defined.

(** C6: for every size strictly above 15,728,640 bytes, [getSignedURL]
    resolves with [null] and signs nothing, whatever the contentType. *)
Theorem getSignedURL_rejects_oversized
    (d : Deps) (userId : Z) (filename type : string) (size : Z) (checksum : string) :
  15728640 < size ->
  getSignedURL d userId filename type size checksum = ([], Resolved None).
Proof.
  intros H. unfold getSignedURL.
  destruct (negb (includes acceptedTypes type)); [reflexivity |].
  rewrite maxFileSize_bytes.
  destruct (Z.gtb_spec size 15728640); [reflexivity | lia].
Qed.

Lemma getSignedURL_rejects_oversized_witness :
  15728640 < 15728641 /\
  getSignedURL Samples.deps 42 "upload_mtym/a_b/report_1.pdf" "application/pdf"
               15728641 "q83vEjRWeJA=" = ([], Resolved None) /\
  getSignedURL Samples.deps 42 "upload_mtym/a_b/report_1.zip" "application/zip"
               15728641 "q83vEjRWeJA=" = ([], Resolved None).
Proof.
  split; [lia |].
  split; apply getSignedURL_rejects_oversized; lia.
Defined.

(** C10: a request with an accepted contentType and a size of exactly
    15,728,640 bytes passes both guards (the size guard is a strict
    greater-than): [getSignedURL] hands the presigner one put command bound
    to the key, type, size and checksum it was given, valid for 60 seconds,
    and settles as the presigner does; it never answers [null]. *)
Theorem getSignedURL_accepts_ceiling
    (d : Deps) (userId : Z) (filename type : string) (checksum : string) :
  In type acceptedTypes ->
  let req :=
    SignPut {| put_Bucket := config_get d "AWS_BUCKET_NAME";
               put_Key := filename;
               put_ContentType := type;
               put_ContentLength := 15728640;
               put_ChecksumSHA256 := checksum;
               put_Metadata_userId := show_Z userId |} 60 in
  getSignedURL d userId filename type 15728640 checksum =
    ([req], match getSignedUrl d req with
            | Resolved signedURL => Resolved (Some signedURL)
            | Rejected e => Rejected e
            end) /\
  snd (getSignedURL d userId filename type 15728640 checksum) <> Resolved None.
Proof.
  intros H req. apply includes_In in H.
  unfold getSignedURL. rewrite H. simpl negb. cbv iota.
  change (Z.gtb 15728640 maxFileSize) with false. cbv iota.
  fold req. destruct (getSignedUrl d req); split; try reflexivity; simpl; discriminate.
Qed.

Lemma getSignedURL_accepts_ceiling_witness :
  In "application/pdf" acceptedTypes /\
  snd (getSignedURL Samples.deps 42 "upload_mtym/a_b/report_1.pdf" "application/pdf"
                    15728640 "q83vEjRWeJA=")
  = Resolved (Some "https://s3.example/upload_mtym/a_b/report_1.pdf?X-Amz-Signature=put").
Proof.
  assert (H : In "application/pdf" acceptedTypes).
  { apply includes_In. reflexivity. }
  split; [exact H |].
  destruct (getSignedURL_accepts_ceiling Samples.deps 42 "upload_mtym/a_b/report_1.pdf"
              "application/pdf" "q83vEjRWeJA=" H) as [E _].
  rewrite E. reflexivity.
Defined.

End Broker.

(* ================================================================== *)
(** * Strings *)
(* ================================================================== *)

Section Strings.

Lemma append_cons (x : ascii) (a b : string) : String x a ++ b = String x (a ++ b).
Proof. reflexivity. Qed.

Lemma append_assoc (a b c : string) : (a ++ b) ++ c = a ++ b ++ c.
Proof.
  induction a as [| x a IH]; [reflexivity |].
  now rewrite !append_cons, IH.
Qed.

Lemma append_empty_r (a : string) : a ++ "" = a.
Proof.
  induction a as [| x a IH]; [reflexivity |].
  now rewrite append_cons, IH.
Qed.

Lemma occurs_in_middle (pre s post : string) : occurs_in s (pre ++ s ++ post).
Proof. now exists pre, post. Qed.

Lemma occurs_in_end (pre s : string) : occurs_in s (pre ++ s).
Proof. exists pre, "". now rewrite append_empty_r. Qed.

(** The urgent message names the owner and carries the timestamp. *)
Lemma urgent_message_identifies (statusCode firstName lastName : JsVal)
    (timestamp : string) :
  let message := ReportPage.urgent_message statusCode firstName lastName timestamp in
  occurs_in (to_string firstName ++ " " ++ to_string lastName) message /\
  occurs_in timestamp message.
Proof.
  unfold ReportPage.urgent_message. split.
  - exists ("URGENT: File uploaded successfully to S3 but database update failed (Status: "
            ++ to_string statusCode
            ++ "). Your file is safe in S3. Please contact support immediately with your name: "),
           (" and this timestamp: " ++ timestamp).
    rewrite !append_assoc. reflexivity.
  - exists ("URGENT: File uploaded successfully to S3 but database update failed (Status: "
            ++ to_string statusCode
            ++ "). Your file is safe in S3. Please contact support immediately with your name: "
            ++ to_string firstName ++ " " ++ to_string lastName
            ++ " and this timestamp: "), "".
    rewrite append_empty_r, !append_assoc. reflexivity.
Qed.

End Strings.

(* ================================================================== *)
(** * Running the handlers symbolically *)
(* ================================================================== *)

#[local] Arguments member : simpl never.
#[local] Arguments committed : simpl never.
#[local] Arguments truthy : simpl never.
#[local] Arguments get : simpl never.
#[local] Arguments is_num : simpl never.
#[local] Arguments is_str : simpl never.
#[local] Arguments to_string : simpl never.
#[local] Arguments nullish_or : simpl never.
#[local] Arguments ReportPage.urgent_message : simpl never.

(** Split on the innermost scrutinee of the goal: an answer of the
    outside, or the condition of an [if], which is kept as an equation. *)
Ltac case_step :=
  match goal with
  | |- context [match ?x with _ => _ end] =>
      lazymatch x with
      | context [match _ with _ => _ end] => fail
      | _ =>
          lazymatch type of x with
          | bool => destruct x eqn:?
          | _ => destruct x
          end
      end
  end.

Ltac unfold_monad :=
  unfold bind, try_catch, finally, await, get_ui, set_ui, toast, console,
    emit, lift, fresh_name, now, throw, ret.

(** Every path of a run [h w]; each leaves the events, the final world
    and the settlement of that path in place of the run. *)
Ltac paths_of run unfolding :=
  let E := fresh "E" in
  destruct run as [[? ?] ?] eqn:E; revert E;
  unfolding; unfold_monad;
  repeat (simpl; case_step);
  simpl; intros E; injection E as <- <- <-; simpl.

(** Find the event a hypothesis [In e l] speaks of. *)
Ltac which_event H :=
  simpl in H;
  repeat (destruct H as [H | H]; [try discriminate H |]);
  try contradiction;
  try (injection H; clear H; intros; subst).

(** Two facts about the same truthiness tests that cannot both hold. *)
Ltac clash H :=
  unfold upload_ok, status_200 in H;
  repeat match goal with
  | H' : context [truthy ?v] |- _ => destruct (truthy v)
  | H' : context [is_num ?v ?n] |- _ => destruct (is_num v n)
  end;
  simpl in *; congruence.

(** What the store holds after the calls of a path. *)
Ltac store_steps :=
  unfold committed, status_200, write_fields in *;
  cbn [fold_left fst snd];
  repeat match goal with
  | H : is_num _ _ = _ |- _ => rewrite !H
  end;
  repeat match goal with
  | |- context [if is_num ?v ?n then _ else _] => destruct (is_num v n)
  end;
  cbn [fold_left fst snd];
  repeat first [ rewrite lookup_insert_eq
               | rewrite lookup_insert_ne by (intros [=]) ].

Section ReportPageRuns.
Import ReportPage.
Variable env : Env.
Variable userData : JsVal.

Ltac report_paths w :=
  paths_of (handleUpload env userData w)
    ltac:(unfold handleUpload, upload_and_record, report_failure, setUploading).

Lemma handleUpload_upload_failed (w : World State) url f r :
  let run := handleUpload env userData w in
  In (Called (UploadFile url f) r) (events run) ->
  upload_ok r = false ->
  terminal (events run) = Failed UploadFailed /\
  record_writes (events run) = [] /\
  store (world run) = store w.
Proof.
  intros run. subst run. unfold events, world.
  report_paths w.
  all: intros H Hr; which_event H.
  all: try (split; [reflexivity | split; reflexivity]).
  all: exfalso; clash Hr.
Qed.

Lemma urgent_message_not_empty statusCode firstName lastName timestamp :
  String.eqb (urgent_message statusCode firstName lastName timestamp) "" = false.
Proof. reflexivity. Qed.

Lemma handleUpload_commit_refused (w : World State) id fields v :
  let run := handleUpload env userData w in
  In (Called (PutApplication id fields) (Resolved v)) (events run) ->
  is_num (get v "statusCode") 200 = false ->
  terminal (events run) = Failed OrphanedUpload /\
  (exists n,
     notifications (events run) =
       [Toast failure_title
              (urgent_message (get v "statusCode") (get userData "firstName")
                              (get userData "lastName") (toISOString env n))
              true]) /\
  record_writes (events run) = [PutApplication id fields] /\
  store (world run) = store w.
Proof.
  intros run. subst run. unfold events, world.
  report_paths w.
  all: intros H Hr; which_event H.
  all: try congruence.
  all: try (rewrite urgent_message_not_empty in *; discriminate).
  all: split; [reflexivity | split; [eexists; reflexivity | split; [reflexivity |]]].
  all: unfold committed; rewrite Hr; reflexivity.
Qed.

Lemma handleUpload_commit_accepted (w : World State) id fields r :
  let run := handleUpload env userData w in
  In (Called (PutApplication id fields) r) (events run) ->
  status_200 r = true ->
  exists before r',
    calls (events run) =
      (before ++ [PutApplication id fields;
                  UpdateApplicationStatus id [("reportStatus", "PENDING")]])%list /\
    In (Called (UpdateApplicationStatus id [("reportStatus", "PENDING")]) r')
       (events run) /\
    store (world run) !! (to_string id, "reportStatus") =
      (if status_200 r' then Some "PENDING"
       else store w !! (to_string id, "reportStatus")) /\
    terminal (events run) = Done /\
    (exists description,
       notifications (events run) = [Toast success_title description false]) /\
    settled run = Resolved tt /\
    match r' with
    | Resolved _ =>
        status_200 r' = false ->
        In (Console LWarn "⚠️ Failed to reset report status, but file upload was successful")
           (events run)
    | Rejected _ => In (Console LError "❌ Error resetting report status:") (events run)
    end.
Proof.
  intros run. subst run. unfold events, world, settled.
  report_paths w.
  all: intros H Hr; which_event H.
  all: try (exfalso; clash Hr).
  all: match goal with
       | |- exists before r', ?l = _ /\ _ => exists (firstn 3 l)
       end.
  all: eexists; split; [reflexivity |].
  all: split; [simpl; repeat (first [left; reflexivity | right]) |].
  all: split; [store_steps; reflexivity |].
  all: split; [reflexivity |].
  all: split; [eexists; reflexivity |].
  all: split; [reflexivity |].
  all: try (intros Hf; unfold status_200 in Hf; try congruence).
  all: simpl; repeat (first [left; reflexivity | right]).
Qed.

Lemma handleUpload_commits_requested_key (w : World State) id fields r :
  let run := handleUpload env userData w in
  In (Called (PutApplication id fields) r) (events run) ->
  exists key,
    requested_keys (events run) = [key] /\
    fields = [("reportUrl", key)] /\
    (status_200 r = true ->
     store (world run) !! (to_string id, "reportUrl") = Some key).
Proof.
  intros run. subst run. unfold events, world.
  report_paths w.
  all: intros H; which_event H.
  all: eexists; split; [reflexivity | split; [reflexivity |]].
  all: intros Hr; try (exfalso; clash Hr).
  all: store_steps; reflexivity.
Qed.

Lemma handleUpload_reset_failed (w : World State) id fields r id' fields' r' :
  let run := handleUpload env userData w in
  In (Called (PutApplication id fields) r) (events run) ->
  status_200 r = true ->
  In (Called (UpdateApplicationStatus id' fields') r') (events run) ->
  status_200 r' = false ->
  terminal (events run) = Done /\
  (exists description,
     notifications (events run) = [Toast success_title description false]) /\
  settled run = Resolved tt /\
  match r' with
  | Resolved _ =>
      In (Console LWarn "⚠️ Failed to reset report status, but file upload was successful")
         (events run)
  | Rejected _ => In (Console LError "❌ Error resetting report status:") (events run)
  end.
Proof.
  intros run. subst run. unfold events, world, settled.
  report_paths w.
  all: intros H Hr H' Hr'; which_event H; which_event H'.
  all: try (exfalso; clash Hr).
  all: try (exfalso; clash Hr').
  all: split; [reflexivity | split; [eexists; reflexivity | split; [reflexivity |]]].
  all: simpl; repeat (first [left; reflexivity | right]).
Qed.

Lemma checkApplicationStatus_fail_safe (w : World State) :
  let run := checkApplicationStatus env w in
  status_200 (respond env (steps w) GetApplicationsOpenStatus) = false ->
  isApplicationsOpen (ui (world run)) = JBool false /\
  isCheckingStatus (ui (world run)) = false /\
  calls (events run) = [GetApplicationsOpenStatus] /\
  notifications (events run) = [].
Proof.
  intros run. subst run. unfold events, world.
  paths_of (checkApplicationStatus env w)
    ltac:(unfold checkApplicationStatus, setIsApplicationsOpen, setIsCheckingStatus).
  all: intros Hr; try (exfalso; clash Hr).
  all: repeat split.
Qed.

Lemma handleUpload_blocked (w : World State) :
  truthy (isApplicationsOpen (ui w)) = false ->
  handleUpload env userData w =
    ([Toast closed_title closed_description true], w, Resolved tt).
Proof.
  intros H. unfold handleUpload. unfold_monad. simpl. now rewrite H.
Qed.

Lemma handleButtonClick_blocked (w : World State) :
  let run := handleButtonClick env userData w in
  truthy (isApplicationsOpen (ui w)) = false ->
  calls (events run) = [] /\ world run = w.
Proof.
  intros run H. subst run. unfold handleButtonClick, events, world.
  unfold_monad. simpl. rewrite H.
  destruct (truthy (get (content (ui w)) "redirectToApplication")); split; reflexivity.
Qed.

(** A click while applications are closed: the redirect when the content
    asks for it, the closed toast otherwise. *)
Lemma handleButtonClick_closed (w : World State) :
  truthy (isApplicationsOpen (ui w)) = false ->
  handleButtonClick env userData w =
    (if truthy (get (content (ui w)) "redirectToApplication")
     then [RouterPush ("/" ++ locale userData ++ "/profile/application")]
     else [Toast closed_title "Les candidatures sont actuellement fermées." true],
     w, Resolved tt).
Proof.
  intros H. unfold handleButtonClick. unfold_monad. simpl. rewrite H.
  destruct (truthy (get (content (ui w)) "redirectToApplication")); reflexivity.
Qed.

(** The content effect asks for the redirect exactly when no application
    has been submitted. *)
Lemma selectContent_redirects (open : JsVal) :
  truthy (get (selectContent userData open) "redirectToApplication") =
    negb (hasSubmittedApplication userData).
Proof.
  unfold selectContent.
  destruct (hasSubmittedApplication userData); [| reflexivity].
  cbv zeta. simpl negb. cbv iota.
  repeat match goal with
  | |- context [if ?b then _ else _] =>
      lazymatch b with
      | context [if _ then _ else _] => fail
      | _ => destruct b
      end
  end; reflexivity.
Qed.

End ReportPageRuns.

Section ApplicationFormRuns.
Import ApplicationForm.
Variable env : Env.
Variable userData : JsVal.

Ltac form_paths formData w :=
  paths_of (onSubmit env userData formData w)
    ltac:(unfold onSubmit, post_upload_record, upload_each, upload_one, name_at,
            first_file, setIsFormLoading, setError, setShowErrorDialog).

Lemma onSubmit_upload_failed (formData : FormData) (w : World State) url f r :
  let run := onSubmit env userData formData w in
  In (Called (UploadFile url f) r) (events run) ->
  upload_ok r = false ->
  terminal (events run) = Failed UploadFailed /\
  record_writes (events run) = [] /\
  store (world run) = store w.
Proof.
  intros run. subst run. unfold events, world.
  form_paths formData w.
  all: intros H Hr; which_event H.
  all: try (split; [reflexivity | split; reflexivity]).
  all: exfalso; clash Hr.
Qed.

Lemma onSubmit_commits_requested_keys (formData : FormData) (w : World State)
    id fields r :
  let run := onSubmit env userData formData w in
  In (Called (PutApplication id fields) r) (events run) ->
  exists key0 key1,
    requested_keys (events run) = [key0; key1] /\
    fields = [("schoolCertificateUrl", key0); ("gradesUrl", key1)] /\
    (status_200 r = true ->
     store (world run) !! (to_string id, "schoolCertificateUrl") = Some key0 /\
     store (world run) !! (to_string id, "gradesUrl") = Some key1).
Proof.
  intros run. subst run. unfold events, world.
  form_paths formData w.
  all: intros H; which_event H.
  all: do 2 eexists; split; [reflexivity | split; [reflexivity |]].
  all: intros Hr; try (exfalso; clash Hr).
  all: split; store_steps; reflexivity.
Qed.

(** [onSubmit] does not look at what [putApplication] answers: whatever
    the answer, the status update is the next call, and when that call
    resolves the run ends with the success toast. *)
Lemma onSubmit_ignores_commit_answer (formData : FormData) (w : World State)
    id fields v :
  let run := onSubmit env userData formData w in
  In (Called (PutApplication id fields) (Resolved v)) (events run) ->
  exists before status r',
    calls (events run) =
      (before ++ [PutApplication id fields;
                  UpdateApplicationStatus id [("status", status)]])%list /\
    In (Called (UpdateApplicationStatus id [("status", status)]) r') (events run) /\
    match r' with
    | Resolved _ =>
        terminal (events run) = Done /\
        notifications (events run) = [Toast created_title created_description false]
    | Rejected e =>
        terminal (events run) = Failed StatusResetFailed /\
        notifications (events run) = [ErrorDialog e]
    end.
Proof.
  intros run. subst run. unfold events, world.
  form_paths formData w.
  all: intros H; which_event H.
  all: match goal with
       | |- exists before status r', ?l = _ /\ _ => exists (firstn 7 l)
       end.
  all: do 2 eexists; split; [reflexivity |].
  all: split; [simpl; repeat (first [left; reflexivity | right]) |].
  all: split; reflexivity.
Qed.

Lemma onSubmit_never_checks_open (formData : FormData) (w : World State) :
  ~ In GetApplicationsOpenStatus (calls (events (onSubmit env userData formData w))).
Proof.
  unfold events.
  form_paths formData w.
  all: intros H; which_event H.
Qed.

End ApplicationFormRuns.


(* ================================================================== *)
(** * The workflow properties *)
(* ================================================================== *)

Section Claims.
Import Samples.

(** In a concrete list of events, find the one asked for. *)
Ltac found := vm_compute; repeat (first [left; reflexivity | right]).

(** ** Orphaned uploads *)

(** The report page: when [putApplication] answers with a status other
    than 200, the run fails as an orphaned upload, and the one message
    shown names the owner ([firstName lastName]) and carries a timestamp
    read from the clock. *)
Lemma handleUpload_reports_orphaned_upload
    (env : Env) (userData : JsVal) (w : World ReportPage.State) id fields v :
  let run := ReportPage.handleUpload env userData w in
  In (Called (PutApplication id fields) (Resolved v)) (events run) ->
  is_num (get v "statusCode") 200 = false ->
  terminal (events run) = Failed OrphanedUpload /\
  exists message n,
    notifications (events run) = [Toast ReportPage.failure_title message true] /\
    occurs_in (to_string (get userData "firstName") ++ " "
               ++ to_string (get userData "lastName")) message /\
    occurs_in (toISOString env n) message.
Proof.
  intros run H Hv.
  destruct (handleUpload_commit_refused env userData w id fields v H Hv)
    as (Ht & [n Hn] & _).
  split; [exact Ht |].
  eexists; exists n. split; [exact Hn |].
  apply urgent_message_identifies.
Qed.

(** C1: the application form at a run where both uploads succeed and
    [putApplication] answers 500.  [onSubmit] drops that answer: it goes on
    to the status update, shows the success toast and ends as done, where
    the claim asks for a failure naming the owner and a timestamp. *)
Theorem onSubmit_reports_success_on_refused_commit :
  let run := ApplicationForm.onSubmit (env_of commit_refused) amina form form_world in
  In (Called (PutApplication (JNum 7)
                [("schoolCertificateUrl", "upload_mtym/Amina_Idrissi/school_certificate_g0.pdf");
                 ("gradesUrl", "upload_mtym/Amina_Idrissi/grades_g1.png")])
             (Resolved (answer 500)))
     (events run) /\
  status_200 (Resolved (answer 500)) = false /\
  record_writes (events run) =
    [PutApplication (JNum 7)
       [("schoolCertificateUrl", "upload_mtym/Amina_Idrissi/school_certificate_g0.pdf");
        ("gradesUrl", "upload_mtym/Amina_Idrissi/grades_g1.png")];
     UpdateApplicationStatus (JNum 7) [("status", "PENDING")]] /\
  terminal (events run) = Done /\
  notifications (events run) =
    [Toast ApplicationForm.created_title ApplicationForm.created_description false] /\
  store (world run) !! ("7", "schoolCertificateUrl") = None.
Proof.
  intros run. subst run.
  split; [found |].
  repeat split; vm_compute; reflexivity.
Qed.

(** ** Upload failures *)

(** C3: when the upload step reports failure (the promise rejects, or
    resolves with a falsy value or a falsy [success]), the run of the report
    page and the run of the application form both end as
    [Failed UploadFailed]; no [putApplication] and no
    [updateApplicationStatus] call is made, and the durable store is as it
    was. *)
Theorem upload_failure_commits_nothing
    (env : Env) (userData : JsVal) (url : JsVal) (f : File) (r : outcome JsVal) :
  upload_ok r = false ->
  (forall w : World ReportPage.State,
     let run := ReportPage.handleUpload env userData w in
     In (Called (UploadFile url f) r) (events run) ->
     terminal (events run) = Failed UploadFailed /\
     record_writes (events run) = [] /\
     store (world run) = store w) /\
  (forall (formData : FormData) (w : World ApplicationForm.State),
     let run := ApplicationForm.onSubmit env userData formData w in
     In (Called (UploadFile url f) r) (events run) ->
     terminal (events run) = Failed UploadFailed /\
     record_writes (events run) = [] /\
     store (world run) = store w).
Proof.
  intros Hr. split.
  - intros w run H. now apply (handleUpload_upload_failed env userData w url f r).
  - intros formData w run H.
    now apply (onSubmit_upload_failed env userData formData w url f r).
Qed.

Lemma upload_failure_commits_nothing_witness :
  let url := JStr "https://s3.example/upload_mtym/Amina_Idrissi/report_g0.pdf" in
  let file := new_File pdf "report_g0.pdf" "application/pdf" in
  let run := ReportPage.handleUpload (env_of upload_breaks) amina report_world in
  upload_ok network_error = false /\
  In (Called (UploadFile url file) network_error) (events run) /\
  terminal (events run) = Failed UploadFailed /\
  record_writes (events run) = [] /\
  store (world run) = store report_world.
Proof.
  intros url file run.
  assert (Hr : upload_ok network_error = false) by reflexivity.
  assert (H : In (Called (UploadFile url file) network_error) (events run)) by found.
  split; [exact Hr |]. split; [exact H |].
  exact (proj1 (upload_failure_commits_nothing (env_of upload_breaks) amina url file
                  network_error Hr) report_world H).
Defined.

(** ** Resubmitting a validated report *)

(** C2, as it is stated, fails at this run: the report status is VALID,
    the upload succeeds, [putApplication] answers 200, and
    [updateApplicationStatus] answers 500.  The run ends as done and the
    report status is still VALID, not PENDING. *)
Lemma resubmission_can_leave_VALID :
  let run := ReportPage.handleUpload (env_of reset_refused) amina report_world in
  store report_world !! ("7", "reportStatus") = Some "VALID" /\
  In (Called (PutApplication (JNum 7)
                [("reportUrl", "upload_mtym/Amina_Idrissi/report_g0.pdf")])
             (Resolved (answer 200)))
     (events run) /\
  store (world run) !! ("7", "reportUrl") =
    Some "upload_mtym/Amina_Idrissi/report_g0.pdf" /\
  terminal (events run) = Done /\
  store (world run) !! ("7", "reportStatus") = Some "VALID" /\
  store (world run) !! ("7", "reportStatus") <> Some "PENDING".
Proof.
  intros run. subst run.
  split; [vm_compute; reflexivity |].
  split; [found |].
  repeat split; try (vm_compute; reflexivity).
  vm_compute. discriminate.
Qed.

(** C2 (amended): for a report whose status is VALID, a commit answered
    with 200 is followed at once by the call
    [updateApplicationStatus(id, { reportStatus: 'PENDING' })]; the report
    status is PENDING after the run when that call is answered with 200 and
    is still VALID otherwise.  When the upload step failed, nothing is
    written and the report status is still VALID. *)
Theorem resubmission_requests_PENDING
    (env : Env) (userData : JsVal) (w : World ReportPage.State) (id : JsVal) :
  store w !! (to_string id, "reportStatus") = Some "VALID" ->
  let run := ReportPage.handleUpload env userData w in
  (forall fields r,
     In (Called (PutApplication id fields) r) (events run) ->
     status_200 r = true ->
     exists before r',
       calls (events run) =
         (before ++ [PutApplication id fields;
                     UpdateApplicationStatus id [("reportStatus", "PENDING")]])%list /\
       In (Called (UpdateApplicationStatus id [("reportStatus", "PENDING")]) r')
          (events run) /\
       store (world run) !! (to_string id, "reportStatus") =
         (if status_200 r' then Some "PENDING" else Some "VALID")) /\
  (forall url f r,
     In (Called (UploadFile url f) r) (events run) ->
     upload_ok r = false ->
     record_writes (events run) = [] /\
     store (world run) !! (to_string id, "reportStatus") = Some "VALID").
Proof.
  intros Hvalid run. split.
  - intros fields r H Hr.
    destruct (handleUpload_commit_accepted env userData w id fields r H Hr)
      as (before & r' & Hcalls & Hin & Hstore & _).
    exists before, r'. rewrite <- Hvalid. auto.
  - intros url f r H Hr.
    destruct (handleUpload_upload_failed env userData w url f r H Hr)
      as (_ & Hwrites & Hstore).
    split; [exact Hwrites |]. fold run in Hstore. now rewrite Hstore.
Qed.

Lemma resubmission_requests_PENDING_witness :
  let run := ReportPage.handleUpload (env_of all_well) amina report_world in
  let put :=
    PutApplication (JNum 7) [("reportUrl", "upload_mtym/Amina_Idrissi/report_g0.pdf")] in
  store report_world !! (to_string (JNum 7), "reportStatus") = Some "VALID" /\
  In (Called put (Resolved (answer 200))) (events run) /\
  status_200 (Resolved (answer 200)) = true /\
  exists before r',
    calls (events run) =
      (before ++ [put; UpdateApplicationStatus (JNum 7) [("reportStatus", "PENDING")]])%list /\
    In (Called (UpdateApplicationStatus (JNum 7) [("reportStatus", "PENDING")]) r')
       (events run) /\
    store (world run) !! (to_string (JNum 7), "reportStatus") =
      (if status_200 r' then Some "PENDING" else Some "VALID").
Proof.
  intros run put.
  assert (Hvalid : store report_world !! (to_string (JNum 7), "reportStatus") = Some "VALID")
    by (vm_compute; reflexivity).
  assert (H : In (Called put (Resolved (answer 200))) (events run)) by found.
  assert (Hr : status_200 (Resolved (answer 200)) = true) by reflexivity.
  split; [exact Hvalid |]. split; [exact H |]. split; [exact Hr |].
  exact (proj1 (resubmission_requests_PENDING (env_of all_well) amina report_world
                  (JNum 7) Hvalid) _ _ H Hr).
Defined.

(** ** The applications-open gate *)

(** C4, as it is stated, fails for the application form: with a settings
    endpoint that answers 503 to every applications-open check, [onSubmit]
    starts with [postApplication], never asks whether applications are
    open, and ends as done. *)
Lemma onSubmit_is_not_gated :
  let run := ApplicationForm.onSubmit (env_of settings_down) amina form form_world in
  (forall n, status_200 (respond (env_of settings_down) n GetApplicationsOpenStatus) = false) /\
  hd_error (calls (events run)) = Some (PostApplication (JObj [("city", JStr "Rabat")])) /\
  ~ In GetApplicationsOpenStatus (calls (events run)) /\
  record_writes (events run) =
    [PutApplication (JNum 7)
       [("schoolCertificateUrl", "upload_mtym/Amina_Idrissi/school_certificate_g0.pdf");
        ("gradesUrl", "upload_mtym/Amina_Idrissi/grades_g1.png")];
     UpdateApplicationStatus (JNum 7) [("status", "PENDING")]] /\
  terminal (events run) = Done.
Proof.
  intros run. subst run.
  split; [intros n; reflexivity |].
  split; [vm_compute; reflexivity |].
  split; [apply onSubmit_never_checks_open |].
  split; vm_compute; reflexivity.
Qed.

(** C4 (amended): on the report page, when the applications-open check
    answers with a status other than 200 or rejects, [isApplicationsOpen]
    is set to [false].  From then on no upload can be started: [handleUpload]
    shows the closed toast and does nothing else, and a click on the button
    makes no call and leaves the world as it was.  What the click shows
    depends on the content: the closed toast, or, when the content asks for
    the redirect, only the navigation to the application page; the content
    effect asks for the redirect exactly for a candidate without a
    submitted application.  (The application form has no such gate in
    [onSubmit].) *)
Theorem report_page_closed_on_failed_check
    (env : Env) (userData : JsVal) (w : World ReportPage.State) :
  status_200 (respond env (steps w) GetApplicationsOpenStatus) = false ->
  let checked := world (ReportPage.checkApplicationStatus env w) in
  ReportPage.isApplicationsOpen (ui checked) = JBool false /\
  ReportPage.isCheckingStatus (ui checked) = false /\
  (forall later : World ReportPage.State,
     ReportPage.isApplicationsOpen (ui later) = ReportPage.isApplicationsOpen (ui checked) ->
     ReportPage.handleUpload env userData later =
       ([Toast ReportPage.closed_title ReportPage.closed_description true],
        later, Resolved tt) /\
     ReportPage.handleButtonClick env userData later =
       (if truthy (get (ReportPage.content (ui later)) "redirectToApplication")
        then [RouterPush ("/" ++ ReportPage.locale userData ++ "/profile/application")]
        else [Toast ReportPage.closed_title
                    "Les candidatures sont actuellement fermées." true],
        later, Resolved tt) /\
     calls (events (ReportPage.handleButtonClick env userData later)) = [] /\
     world (ReportPage.handleButtonClick env userData later) = later) /\
  (forall open : JsVal,
     truthy (get (ReportPage.selectContent userData open) "redirectToApplication") =
       negb (ReportPage.hasSubmittedApplication userData)).
Proof.
  intros H checked.
  destruct (checkApplicationStatus_fail_safe env w H) as (Hopen & Hchecking & _).
  fold checked in Hopen, Hchecking.
  split; [exact Hopen |]. split; [exact Hchecking |].
  split; [| intros open; apply selectContent_redirects].
  intros later Hlater. rewrite Hopen in Hlater.
  assert (Hclosed : truthy (ReportPage.isApplicationsOpen (ui later)) = false)
    by now rewrite Hlater.
  split; [now apply handleUpload_blocked |].
  split; [now apply handleButtonClick_closed |].
  now apply handleButtonClick_blocked.
Qed.

Lemma report_page_closed_on_failed_check_witness :
  let checked := world (ReportPage.checkApplicationStatus (env_of settings_down) mounting_world) in
  let unsubmitted :=
    mkWorld
      (snd (ReportPage.contentEffect MoreSamples.newcomer false (ui checked)))
      (store checked) (steps checked) in
  status_200 (respond (env_of settings_down) (steps mounting_world) GetApplicationsOpenStatus)
    = false /\
  ReportPage.isApplicationsOpen (ui checked) = JBool false /\
  ReportPage.handleUpload (env_of settings_down) amina checked =
    ([Toast ReportPage.closed_title ReportPage.closed_description true],
     checked, Resolved tt) /\
  ReportPage.handleButtonClick (env_of settings_down) amina checked =
    ([Toast ReportPage.closed_title "Les candidatures sont actuellement fermées." true],
     checked, Resolved tt) /\
  ReportPage.handleButtonClick (env_of settings_down) MoreSamples.newcomer unsubmitted =
    ([RouterPush "/fr/profile/application"], unsubmitted, Resolved tt).
Proof.
  intros checked unsubmitted.
  assert (H : status_200 (respond (env_of settings_down) (steps mounting_world)
                            GetApplicationsOpenStatus) = false) by reflexivity.
  destruct (report_page_closed_on_failed_check (env_of settings_down) amina
              mounting_world H) as (Hopen & _ & Hlater & _).
  destruct (report_page_closed_on_failed_check (env_of settings_down) MoreSamples.newcomer
              mounting_world H) as (_ & _ & Hnew & _).
  split; [exact H |]. split; [exact Hopen |].
  split; [exact (proj1 (Hlater checked eq_refl)) |].
  split; [exact (proj1 (proj2 (Hlater checked eq_refl))) |].
  exact (proj1 (proj2 (Hnew unsubmitted eq_refl))).
Defined.

(** ** The object key *)

(** The broker signs for the key it is given, unchanged. *)
Lemma getSignedURL_binds_key
    (d : MediaService.Deps) (userId : Z) (filename type : string) (size : Z)
    (checksum : string) (req : MediaService.SignRequest) :
  In req (fst (MediaService.getSignedURL d userId filename type size checksum)) ->
  exists command,
    req = MediaService.SignPut command 60 /\
    MediaService.put_Key command = filename.
Proof.
  unfold MediaService.getSignedURL.
  destruct (negb (includes MediaService.acceptedTypes type)); [intros [] |].
  destruct (Z.gtb size MediaService.maxFileSize); [intros [] |].
  destruct (MediaService.getSignedUrl d _); intros [<- | []]; eexists; split; reflexivity.
Qed.

(** C7: in every run that reaches a commit answered with 200 (so the
    authorization and the upload before it succeeded), the object keys
    written by [putApplication] are the keys for which the upload
    authorizations were requested, character for character and in order
    (one key, [reportUrl], on the report page; two,
    [schoolCertificateUrl] and [gradesUrl], in the application form), and
    the store holds these keys after the run.  The broker, for its part,
    signs for the key it is given. *)
Theorem committed_key_is_requested_key
    (env : Env) (userData : JsVal) (id : JsVal) (fields : list (string * string))
    (r : outcome JsVal) :
  status_200 r = true ->
  (forall w : World ReportPage.State,
     let run := ReportPage.handleUpload env userData w in
     In (Called (PutApplication id fields) r) (events run) ->
     exists key,
       requested_keys (events run) = [key] /\
       fields = [("reportUrl", key)] /\
       store (world run) !! (to_string id, "reportUrl") = Some key) /\
  (forall (formData : FormData) (w : World ApplicationForm.State),
     let run := ApplicationForm.onSubmit env userData formData w in
     In (Called (PutApplication id fields) r) (events run) ->
     exists key0 key1,
       requested_keys (events run) = [key0; key1] /\
       fields = [("schoolCertificateUrl", key0); ("gradesUrl", key1)] /\
       store (world run) !! (to_string id, "schoolCertificateUrl") = Some key0 /\
       store (world run) !! (to_string id, "gradesUrl") = Some key1) /\
  (forall d userId filename type size checksum req,
     In req (fst (MediaService.getSignedURL d userId filename type size checksum)) ->
     exists command,
       req = MediaService.SignPut command 60 /\
       MediaService.put_Key command = filename).
Proof.
  intros Hr. split; [| split].
  - intros w run H.
    destruct (handleUpload_commits_requested_key env userData w id fields r H)
      as (key & Hkeys & Hfields & Hstore).
    exists key. auto.
  - intros formData w run H.
    destruct (onSubmit_commits_requested_keys env userData formData w id fields r H)
      as (key0 & key1 & Hkeys & Hfields & Hstore).
    exists key0, key1. destruct (Hstore Hr). auto.
  - apply getSignedURL_binds_key.
Qed.

Lemma committed_key_is_requested_key_witness :
  let run := ReportPage.handleUpload (env_of all_well) amina report_world in
  let key := "upload_mtym/Amina_Idrissi/report_g0.pdf" in
  status_200 (Resolved (answer 200)) = true /\
  In (Called (PutApplication (JNum 7) [("reportUrl", key)]) (Resolved (answer 200)))
     (events run) /\
  exists key',
    requested_keys (events run) = [key'] /\
    [("reportUrl", key)] = [("reportUrl", key')] /\
    store (world run) !! (to_string (JNum 7), "reportUrl") = Some key'.
Proof.
  intros run key.
  assert (Hr : status_200 (Resolved (answer 200)) = true) by reflexivity.
  assert (H : In (Called (PutApplication (JNum 7) [("reportUrl", key)])
                         (Resolved (answer 200))) (events run)) by found.
  split; [exact Hr |]. split; [exact H |].
  exact (proj1 (committed_key_is_requested_key (env_of all_well) amina (JNum 7)
                  [("reportUrl", key)] (Resolved (answer 200)) Hr) report_world H).
Defined.

(** ** A failed status reset *)

(** C8: on the report page, when the commit is answered with 200 and the
    status-reset call then fails (it is answered with another status, or
    it rejects), the run still ends as done: the promise of [handleUpload]
    resolves, the one thing shown to the user is the success toast, and the
    failure is left on the console only (a warning for a non-200 answer, an
    error line for a rejection). *)
Theorem status_reset_failure_is_not_fatal
    (env : Env) (userData : JsVal) (w : World ReportPage.State)
    id fields r id' fields' r' :
  let run := ReportPage.handleUpload env userData w in
  In (Called (PutApplication id fields) r) (events run) ->
  status_200 r = true ->
  In (Called (UpdateApplicationStatus id' fields') r') (events run) ->
  status_200 r' = false ->
  terminal (events run) = Done /\
  (exists description,
     notifications (events run) = [Toast ReportPage.success_title description false]) /\
  settled run = Resolved tt /\
  match r' with
  | Resolved _ =>
      In (Console LWarn "⚠️ Failed to reset report status, but file upload was successful")
         (events run)
  | Rejected _ => In (Console LError "❌ Error resetting report status:") (events run)
  end.
Proof.
  intros run H Hr H' Hr'.
  exact (handleUpload_reset_failed env userData w id fields r id' fields' r' H Hr H' Hr').
Qed.

Lemma status_reset_failure_is_not_fatal_witness :
  let run := ReportPage.handleUpload (env_of reset_throws) amina report_world in
  let put :=
    PutApplication (JNum 7) [("reportUrl", "upload_mtym/Amina_Idrissi/report_g0.pdf")] in
  let reset := UpdateApplicationStatus (JNum 7) [("reportStatus", "PENDING")] in
  In (Called put (Resolved (answer 200))) (events run) /\
  In (Called reset network_error) (events run) /\
  terminal (events run) = Done /\
  settled run = Resolved tt /\
  In (Console LError "❌ Error resetting report status:") (events run).
Proof.
  intros run put reset.
  assert (H : In (Called put (Resolved (answer 200))) (events run)) by found.
  assert (H' : In (Called reset network_error) (events run)) by found.
  destruct (status_reset_failure_is_not_fatal (env_of reset_throws) amina report_world
              _ _ _ _ _ _ H eq_refl H' eq_refl) as (Ht & _ & Hs & Hc).
  split; [exact H |]. split; [exact H' |]. split; [exact Ht |]. split; [exact Hs |].
  exact Hc.
Defined.

(** ** The file picker and the broker *)

Lemma handleFileChange_rejects_type
    (w : World ReportPage.State) (file : File) (others : list File) :
  ~ In (file_type file) ReportPage.acceptedFileTypes ->
  ReportPage.handleFileChange (Some (file :: others)) w =
    ([Toast "Format de fichier non valide"
            "Veuillez choisir un fichier PDF ou une image (JPG, PNG)" true;
      InputCleared],
     w, Resolved tt).
Proof.
  intros H. apply includes_not_In in H.
  unfold ReportPage.handleFileChange. rewrite H. reflexivity.
Qed.

Lemma handleFileChange_takes
    (w : World ReportPage.State) (file : File) (others : list File) :
  In (file_type file) ReportPage.acceptedFileTypes ->
  file_size file <= ReportPage.maxSizeInBytes ->
  ReportPage.handleFileChange (Some (file :: others)) w =
    ([], world (ReportPage.setSelectedFile (Some file) w), Resolved tt) /\
  ReportPage.selectedFile (ui (world (ReportPage.setSelectedFile (Some file) w))) = Some file.
Proof.
  intros H Hsize. apply includes_In in H.
  unfold ReportPage.handleFileChange. rewrite H. simpl negb. cbv iota.
  destruct (Z.gtb_spec (file_size file) ReportPage.maxSizeInBytes); [lia |].
  split; reflexivity.
Qed.

(** C9: the file picker of the report page takes a file exactly when its
    type is one of application/pdf, image/png, image/jpeg and image/jpg
    (and its size is within 15 MiB); the broker accepts all of these types
    and image/webp besides.  So image/webp tells them apart: the picker
    turns a webp file down (a toast, the input cleared, the selection as it
    was) while [getSignedURL], for a size within the ceiling, hands the
    same contentType to the presigner. *)
Theorem picker_stricter_than_broker
    (w : World ReportPage.State) (file : File) (others : list File)
    (d : MediaService.Deps) (userId : Z) (filename : string) (size : Z)
    (checksum : string) :
  file_type file = "image/webp" ->
  size <= 15728640 ->
  ReportPage.acceptedFileTypes =
    ["application/pdf"; "image/png"; "image/jpeg"; "image/jpg"] /\
  (forall (w' : World ReportPage.State) (file' : File) (others' : list File),
     ~ In (file_type file') ReportPage.acceptedFileTypes ->
     world (ReportPage.handleFileChange (Some (file' :: others')) w') = w') /\
  (forall (w' : World ReportPage.State) (file' : File) (others' : list File),
     In (file_type file') ReportPage.acceptedFileTypes ->
     file_size file' <= 15728640 ->
     ReportPage.selectedFile
       (ui (world (ReportPage.handleFileChange (Some (file' :: others')) w'))) =
       Some file') /\
  (forall t, In t ReportPage.acceptedFileTypes -> In t MediaService.acceptedTypes) /\
  ~ In "image/webp" ReportPage.acceptedFileTypes /\
  In "image/webp" MediaService.acceptedTypes /\
  ReportPage.handleFileChange (Some (file :: others)) w =
    ([Toast "Format de fichier non valide"
            "Veuillez choisir un fichier PDF ou une image (JPG, PNG)" true;
      InputCleared],
     w, Resolved tt) /\
  exists command,
    fst (MediaService.getSignedURL d userId filename "image/webp" size checksum) =
      [MediaService.SignPut command 60] /\
    MediaService.put_ContentType command = "image/webp".
Proof.
  intros Htype Hsize.
  assert (Hno : ~ In "image/webp" ReportPage.acceptedFileTypes).
  { apply includes_not_In. reflexivity. }
  split; [reflexivity |].
  split.
  { intros w' file' others' H. now rewrite handleFileChange_rejects_type. }
  split.
  { intros w' file' others' H Hs.
    destruct (handleFileChange_takes w' file' others' H Hs) as [E Hsel].
    now rewrite E. }
  split.
  { intros t Ht. apply includes_In.
    simpl in Ht. repeat (destruct Ht as [<- | Ht]; [reflexivity |]). contradiction. }
  split; [exact Hno |].
  split; [apply includes_In; reflexivity |].
  split; [apply handleFileChange_rejects_type; now rewrite Htype |].
  unfold MediaService.getSignedURL.
  change (negb (includes MediaService.acceptedTypes "image/webp")) with false.
  cbv iota. rewrite maxFileSize_bytes.
  destruct (Z.gtb_spec size 15728640); [lia |].
  destruct (MediaService.getSignedUrl d _); eexists; split; reflexivity.
Qed.

Lemma picker_stricter_than_broker_witness :
  file_type webp = "image/webp" /\
  4 <= 15728640 /\
  ReportPage.handleFileChange (Some [webp]) report_world =
    ([Toast "Format de fichier non valide"
            "Veuillez choisir un fichier PDF ou une image (JPG, PNG)" true;
      InputCleared],
     report_world, Resolved tt) /\
  exists command,
    fst (MediaService.getSignedURL deps 12 "upload_mtym/Amina_Idrissi/report_g0.webp"
                                   "image/webp" 4 "q83vEjRWeJA=") =
      [MediaService.SignPut command 60] /\
    MediaService.put_ContentType command = "image/webp".
Proof.
  assert (Htype : file_type webp = "image/webp") by reflexivity.
  assert (Hsize : 4 <= 15728640) by lia.
  destruct (picker_stricter_than_broker report_world webp [] deps 12
              "upload_mtym/Amina_Idrissi/report_g0.webp" 4 "q83vEjRWeJA=" Htype Hsize)
    as (_ & _ & _ & _ & _ & _ & Hpick & Hsign).
  split; [exact Htype |]. split; [exact Hsize |]. split; [exact Hpick | exact Hsign].
Defined.

End Claims.

(* ================================================================== *)
(** * Further properties of the broker *)
(* ================================================================== *)

Section BrokerMore.
Import MediaService.

(** X1: [getSignedURL] hands a request to the presigner exactly when the
    contentType is accepted and the size is at most 15,728,640; it answers
    [null] exactly when it is not so; and it never signs twice. *)
Theorem getSignedURL_signs_exactly_when_valid
    (d : Deps) (userId : Z) (filename type : string) (size : Z) (checksum : string) :
  let run := getSignedURL d userId filename type size checksum in
  (fst run <> [] <-> In type acceptedTypes /\ size <= 15728640) /\
  (snd run = Resolved None <-> ~ (In type acceptedTypes /\ size <= 15728640)) /\
  (length (fst run) <= 1)%nat.
Proof.
  intros run. subst run. unfold getSignedURL.
  destruct (includes acceptedTypes type) eqn:Ht; simpl negb; cbv iota.
  - apply includes_In in Ht. rewrite maxFileSize_bytes.
    destruct (Z.gtb_spec size 15728640) as [Hs | Hs].
    + split; [split; [intros H; now elim H | intros [_ H]; lia] |].
      split; [split; [intros _ [_ H]; lia | reflexivity] | simpl; lia].
    + destruct (getSignedUrl d _); simpl.
      * split; [split; [tauto | discriminate] |].
        split; [split; [discriminate | tauto] | lia].
      * split; [split; [tauto | discriminate] |].
        split; [split; [discriminate | tauto] | lia].
  - apply includes_not_In in Ht.
    split; [split; [intros H; now elim H | tauto] |].
    split; [split; [tauto | reflexivity] | simpl; lia].
Qed.

Lemma getSignedURL_signed_request
    (d : Deps) (userId : Z) (filename type : string) (size : Z) (checksum : string)
    (req : SignRequest) :
  In req (fst (getSignedURL d userId filename type size checksum)) ->
  req = SignPut {| put_Bucket := config_get d "AWS_BUCKET_NAME";
                   put_Key := filename;
                   put_ContentType := type;
                   put_ContentLength := size;
                   put_ChecksumSHA256 := checksum;
                   put_Metadata_userId := show_Z userId |} 60 /\
  snd (getSignedURL d userId filename type size checksum) =
    match getSignedUrl d req with
    | Resolved signedURL => Resolved (Some signedURL)
    | Rejected e => Rejected e
    end.
Proof.
  unfold getSignedURL.
  destruct (negb (includes acceptedTypes type)); [intros [] |].
  destruct (Z.gtb size maxFileSize); [intros [] |].
  destruct (getSignedUrl d _) eqn:E; intros [<- | []]; rewrite E; split; reflexivity.
Qed.

(** X2: whatever [getSignedURL] has signed is one put command for the
    configured bucket that carries the key, contentType, size, checksum and
    user id it was called with, valid for 60 seconds; and the promise then
    settles as the presigner did. *)
Theorem getSignedURL_command_is_bound
    (d : Deps) (userId : Z) (filename type : string) (size : Z) (checksum : string)
    (req : SignRequest) :
  In req (fst (getSignedURL d userId filename type size checksum)) ->
  req = SignPut {| put_Bucket := config_get d "AWS_BUCKET_NAME";
                   put_Key := filename;
                   put_ContentType := type;
                   put_ContentLength := size;
                   put_ChecksumSHA256 := checksum;
                   put_Metadata_userId := show_Z userId |} 60 /\
  snd (getSignedURL d userId filename type size checksum) =
    match getSignedUrl d req with
    | Resolved signedURL => Resolved (Some signedURL)
    | Rejected e => Rejected e
    end.
Proof. apply getSignedURL_signed_request. Qed.

Lemma getSignedURL_command_is_bound_witness :
  let req :=
    SignPut {| put_Bucket := JStr "fma-bucket";
               put_Key := "upload_mtym/Amina_Idrissi/report_g0.pdf";
               put_ContentType := "application/pdf";
               put_ContentLength := 4;
               put_ChecksumSHA256 := "q83vEjRWeJA=";
               put_Metadata_userId := "12" |} 60 in
  In req (fst (getSignedURL Samples.deps 12 "upload_mtym/Amina_Idrissi/report_g0.pdf"
                            "application/pdf" 4 "q83vEjRWeJA=")) /\
  snd (getSignedURL Samples.deps 12 "upload_mtym/Amina_Idrissi/report_g0.pdf"
                    "application/pdf" 4 "q83vEjRWeJA=") =
    Resolved (Some "https://s3.example/upload_mtym/Amina_Idrissi/report_g0.pdf?X-Amz-Signature=put").
Proof.
  intros req.
  assert (H : In req (fst (getSignedURL Samples.deps 12
                             "upload_mtym/Amina_Idrissi/report_g0.pdf"
                             "application/pdf" 4 "q83vEjRWeJA="))).
  { vm_compute. left. reflexivity. }
  split; [exact H |].
  destruct (getSignedURL_command_is_bound _ _ _ _ _ _ _ H) as [_ E].
  rewrite E. reflexivity.
Defined.

(** X3: [getPresignedFileUrl] checks nothing: for every key it signs one
    get command for that key, valid for 3600 seconds, and settles as the
    presigner does.  Called with the key of a put command that
    [getSignedURL] signed, it signs for the same bucket and the same key:
    what was written under the one can be read under the other. *)
Theorem getPresignedFileUrl_reads_what_was_written
    (d : Deps) (userId : Z) (filename type : string) (size : Z) (checksum : string)
    (command : PutObjectCommand) (expiresIn : Z) :
  In (SignPut command expiresIn) (fst (getSignedURL d userId filename type size checksum)) ->
  let read := SignGet {| get_Bucket := put_Bucket command; get_Key := filename |} 3600 in
  put_Key command = filename /\
  getPresignedFileUrl d (put_Key command) = ([read], getSignedUrl d read) /\
  (forall key, exists c, fst (getPresignedFileUrl d key) = [SignGet c 3600] /\ get_Key c = key).
Proof.
  intros H read.
  destruct (getSignedURL_signed_request _ _ _ _ _ _ _ H) as [E _].
  injection E as -> _. subst read. simpl.
  split; [reflexivity |]. split; [reflexivity |].
  intros key. eexists. split; reflexivity.
Qed.

Lemma getPresignedFileUrl_reads_what_was_written_witness :
  let command :=
    {| put_Bucket := JStr "fma-bucket";
       put_Key := "upload_mtym/Amina_Idrissi/report_g0.pdf";
       put_ContentType := "application/pdf";
       put_ContentLength := 4;
       put_ChecksumSHA256 := "q83vEjRWeJA=";
       put_Metadata_userId := "12" |} in
  In (SignPut command 60)
     (fst (getSignedURL Samples.deps 12 "upload_mtym/Amina_Idrissi/report_g0.pdf"
                        "application/pdf" 4 "q83vEjRWeJA=")) /\
  snd (getPresignedFileUrl Samples.deps "upload_mtym/Amina_Idrissi/report_g0.pdf") =
    Resolved "https://s3.example/upload_mtym/Amina_Idrissi/report_g0.pdf?X-Amz-Signature=get".
Proof.
  intros command.
  assert (H : In (SignPut command 60)
                 (fst (getSignedURL Samples.deps 12
                         "upload_mtym/Amina_Idrissi/report_g0.pdf"
                         "application/pdf" 4 "q83vEjRWeJA="))).
  { vm_compute. left. reflexivity. }
  split; [exact H |].
  destruct (getPresignedFileUrl_reads_what_was_written _ _ _ _ _ _ _ _ H) as (_ & E & _).
  simpl in E. rewrite E. reflexivity.
Defined.

End BrokerMore.

(* ================================================================== *)
(** * Further properties of the report page *)
(* ================================================================== *)

Section ReportPageMore.
Import ReportPage.
Variable env : Env.
Variable userData : JsVal.

(** ** The applications-open check *)

(** X4: after [checkApplicationStatus] the page takes applications as open
    exactly when the check was answered with status 200 and a truthy
    [isOpen]; a 200 answer without [isOpen] closes the page like a failed
    check. *)
Theorem checkApplicationStatus_opens_exactly_on_200_open (w : World State) :
  truthy (isApplicationsOpen (ui (world (checkApplicationStatus env w)))) =
    match respond env (steps w) GetApplicationsOpenStatus with
    | Resolved response =>
        is_num (get response "statusCode") 200 && truthy (get response "isOpen")
    | Rejected _ => false
    end.
Proof.
  unfold world.
  paths_of (checkApplicationStatus env w)
    ltac:(unfold checkApplicationStatus, setIsApplicationsOpen, setIsCheckingStatus).
  all: reflexivity.
Qed.

(** X5: [checkApplicationStatus] makes the one call, shows nothing, never
    rejects, ends with [isCheckingStatus] false, and leaves the chosen
    file, the [uploading] flag, the content and the store alone. *)
Theorem checkApplicationStatus_touches_only_its_flags (w : World State) :
  let run := checkApplicationStatus env w in
  settled run = Resolved tt /\
  calls (events run) = [GetApplicationsOpenStatus] /\
  notifications (events run) = [] /\
  isCheckingStatus (ui (world run)) = false /\
  selectedFile (ui (world run)) = selectedFile (ui w) /\
  uploading (ui (world run)) = uploading (ui w) /\
  content (ui (world run)) = content (ui w) /\
  store (world run) = store w.
Proof.
  intros run. subst run. unfold events, world, settled.
  paths_of (checkApplicationStatus env w)
    ltac:(unfold checkApplicationStatus, setIsApplicationsOpen, setIsCheckingStatus).
  all: repeat split.
Qed.

(** ** The file picker *)

(** X6: [handleFileChange] reaches no one outside and never rejects;
    without a first file ([files] null or empty) it does nothing at all;
    with one, the selection afterwards is that file or the selection as it
    was, and no other cell changes. *)
Theorem handleFileChange_only_selects (w : World State) (files : option (list File)) :
  let run := handleFileChange files w in
  settled run = Resolved tt /\
  calls (events run) = [] /\
  store (world run) = store w /\
  steps (world run) = steps w /\
  content (ui (world run)) = content (ui w) /\
  uploading (ui (world run)) = uploading (ui w) /\
  isApplicationsOpen (ui (world run)) = isApplicationsOpen (ui w) /\
  isCheckingStatus (ui (world run)) = isCheckingStatus (ui w) /\
  match files with
  | Some (file :: _) =>
      selectedFile (ui (world run)) = Some file \/
      selectedFile (ui (world run)) = selectedFile (ui w)
  | _ => run = ([], w, Resolved tt)
  end.
Proof.
  intros run. subst run. unfold events, world, settled.
  destruct files as [[| file others] |]; try (repeat split; reflexivity).
  unfold handleFileChange, setSelectedFile. unfold_monad.
  destruct (negb (includes acceptedFileTypes (file_type file)));
    [simpl; repeat split; auto |].
  destruct (Z.gtb (file_size file) maxSizeInBytes); simpl; repeat split; auto.
Qed.

(** X7: a file of an accepted type whose size is above 15,728,640 bytes is
    turned down with the size toast, the input cleared and the world as it
    was; the type is looked at first, so a file of another type gets the
    type toast whatever its size. *)
Theorem handleFileChange_turns_down_oversized
    (w : World State) (file : File) (others : list File) :
  15728640 < file_size file ->
  handleFileChange (Some (file :: others)) w =
    (if includes acceptedFileTypes (file_type file)
     then [Toast "Fichier trop volumineux"
                 "La taille du fichier ne doit pas dépasser 15 Mo" true;
           InputCleared]
     else [Toast "Format de fichier non valide"
                 "Veuillez choisir un fichier PDF ou une image (JPG, PNG)" true;
           InputCleared],
     w, Resolved tt).
Proof.
  intros H. unfold handleFileChange. unfold_monad.
  destruct (includes acceptedFileTypes (file_type file)); simpl negb; cbv iota;
    [| reflexivity].
  change maxSizeInBytes with 15728640.
  destruct (Z.gtb_spec (file_size file) 15728640); [reflexivity | lia].
Qed.

Lemma handleFileChange_turns_down_oversized_witness :
  15728640 < file_size MoreSamples.scan /\
  handleFileChange (Some [MoreSamples.scan]) Samples.report_world =
    ([Toast "Fichier trop volumineux"
            "La taille du fichier ne doit pas dépasser 15 Mo" true;
      InputCleared],
     Samples.report_world, Resolved tt).
Proof.
  assert (H : 15728640 < file_size MoreSamples.scan) by (simpl; lia).
  split; [exact H |].
  exact (handleFileChange_turns_down_oversized Samples.report_world MoreSamples.scan [] H).
Defined.

(** X8: a file that [handleFileChange] takes without a toast has an
    accepted type and a size of at most 15,728,640 bytes, and
    [getSignedURL], asked for that type and size, signs: the picker never
    lets through what the broker would refuse. *)
Theorem taken_file_is_signed
    (w : World State) (file : File) (others : list File)
    (d : MediaService.Deps) (userId : Z) (filename checksum : string) :
  events (handleFileChange (Some (file :: others)) w) = [] ->
  In (file_type file) acceptedFileTypes /\
  file_size file <= 15728640 /\
  selectedFile (ui (world (handleFileChange (Some (file :: others)) w))) = Some file /\
  exists command,
    fst (MediaService.getSignedURL d userId filename (file_type file) (file_size file)
                                   checksum) = [MediaService.SignPut command 60].
Proof.
  unfold handleFileChange, setSelectedFile, events, world. unfold_monad.
  destruct (includes acceptedFileTypes (file_type file)) eqn:Ht; simpl negb; cbv iota;
    [| discriminate].
  change maxSizeInBytes with 15728640.
  destruct (Z.gtb_spec (file_size file) 15728640) as [Hs | Hs]; [discriminate |].
  intros _. apply includes_In in Ht.
  split; [exact Ht |]. split; [exact Hs |]. split; [reflexivity |].
  assert (Hb : In (file_type file) MediaService.acceptedTypes).
  { apply includes_In. simpl in Ht.
    repeat (destruct Ht as [<- | Ht]; [reflexivity |]). contradiction. }
  apply includes_In in Hb.
  unfold MediaService.getSignedURL. rewrite Hb. simpl negb. cbv iota.
  rewrite maxFileSize_bytes.
  destruct (Z.gtb_spec (file_size file) 15728640); [lia |].
  destruct (MediaService.getSignedUrl d _); eexists; reflexivity.
Qed.

Lemma taken_file_is_signed_witness :
  events (handleFileChange (Some [Samples.pdf]) MoreSamples.empty_handed) = [] /\
  selectedFile (ui (world (handleFileChange (Some [Samples.pdf]) MoreSamples.empty_handed)))
    = Some Samples.pdf /\
  exists command,
    fst (MediaService.getSignedURL Samples.deps 12 "upload_mtym/Amina_Idrissi/report_g0.pdf"
           (file_type Samples.pdf) (file_size Samples.pdf) "q83vEjRWeJA=")
    = [MediaService.SignPut command 60].
Proof.
  assert (H : events (handleFileChange (Some [Samples.pdf]) MoreSamples.empty_handed) = [])
    by reflexivity.
  destruct (taken_file_is_signed MoreSamples.empty_handed Samples.pdf [] Samples.deps 12
              "upload_mtym/Amina_Idrissi/report_g0.pdf" "q83vEjRWeJA=" H)
    as (_ & _ & Hsel & Hsign).
  split; [exact H |]. split; [exact Hsel | exact Hsign].
Defined.

End ReportPageMore.

(* ================================================================== *)
(** * Paths, with what was read from [userData] *)
(* ================================================================== *)

Lemma member_resolved (v : JsVal) (k : string) (a : JsVal) :
  member v k = Resolved a -> a = get v k /\ nullish v = false.
Proof. destruct v; simpl; intros [=]; subst; split; reflexivity. Qed.

Lemma member_rejected (v : JsVal) (k : string) (e : JsError) :
  member v k = Rejected e -> nullish v = true /\ err_name e = "TypeError".
Proof. destruct v; simpl; intros [=]; subst; split; reflexivity. Qed.

(** As [case_step], keeping the equations of the reads of [userData] and
    of the lists of files too. *)
Ltac case_step_keeping :=
  match goal with
  | |- context [match ?x with _ => _ end] =>
      lazymatch x with
      | context [match _ with _ => _ end] => fail
      | member _ _ => destruct x eqn:?
      | schoolCertificate _ => destruct x eqn:?
      | grades _ => destruct x eqn:?
      | ReportPage.selectedFile _ => destruct x eqn:?
      | _ =>
          lazymatch type of x with
          | bool => destruct x eqn:?
          | _ => destruct x
          end
      end
  end.

Ltac read_members :=
  repeat match goal with
  | H : member _ _ = Resolved _ |- _ =>
      apply member_resolved in H; destruct H as [-> ?]
  | H : member _ _ = Rejected _ |- _ =>
      apply member_rejected in H; destruct H as [? ?]
  end.

(** Every path of a run, as [paths_of]; what is to be proved is set aside
    while the run is taken apart. *)
Ltac paths_keeping run unfolding :=
  let E := fresh "E" in
  let C := fresh "C" in
  destruct run as [[? ?] ?] eqn:E;
  match goal with |- ?G => set (C := G) end;
  revert E;
  unfolding; unfold_monad;
  repeat (simpl; case_step_keeping);
  simpl; intros E; subst C; injection E as <- <- <-; simpl; read_members.

(** The answer a hypothesis [In r (answers_at step l)] or
    [In c (calls l)] speaks of. *)
Ltac which_answer H :=
  simpl in H;
  repeat (destruct H as [H | H]; [try discriminate H |]);
  try contradiction;
  try (injection H; clear H; intros; subst);
  try subst.

(** The truthiness tests of the goal, case by case, against the tests the
    path has passed. *)
Ltac by_tests :=
  unfold authorized, upload_ok, status_200;
  repeat match goal with
  | |- context [truthy ?v] => destruct (truthy v)
  | |- context [is_num ?v ?n] => destruct (is_num v n)
  end;
  simpl in *;
  first [ congruence
        | intros; congruence
        | repeat match goal with
          | H : context [truthy ?v] |- _ => destruct (truthy v)
          end;
          simpl in *; congruence ].

(** A hypothesis on a test that the path contradicts. *)
Ltac absurd_by H := exfalso; revert H; by_tests.

Section ReportPageUpload.
Import ReportPage.
Variable env : Env.
Variable userData : JsVal.

Ltac upload_paths w :=
  paths_keeping (handleUpload env userData w)
    ltac:(unfold handleUpload, upload_and_record, report_failure, setUploading).

(** X9: with applications open and no file chosen, [handleUpload] shows
    the no-file toast and does nothing else: no call, the world as it was,
    [uploading] never raised. *)
Theorem handleUpload_without_file (w : World State) :
  truthy (isApplicationsOpen (ui w)) = true ->
  selectedFile (ui w) = None ->
  handleUpload env userData w =
    ([Toast "Aucun fichier sélectionné"
            "Veuillez sélectionner un fichier avant de l'envoyer" true],
     w, Resolved tt).
Proof.
  intros Hopen Hnone. unfold handleUpload. unfold_monad. simpl.
  now rewrite Hopen, Hnone.
Qed.

Lemma handleUpload_shape (w : World State) :
  let run := handleUpload env userData w in
  (settled run = Resolved tt /\
   (exists shown, notifications (events run) = [shown]) /\
   content (ui (world run)) = content (ui w) /\
   selectedFile (ui (world run)) = selectedFile (ui w) /\
   isApplicationsOpen (ui (world run)) = isApplicationsOpen (ui w) /\
   isCheckingStatus (ui (world run)) = isCheckingStatus (ui w) /\
   (uploading (ui (world run)) = false \/ world run = w)) /\
  exists n,
    map step_of (calls (events run)) =
      firstn n [ChecksumFailed; AuthorizationDenied; UploadFailed; OrphanedUpload;
                StatusResetFailed].
Proof.
  intros run. subst run. unfold events, world, settled.
  upload_paths w.
  all: split;
    [ split; [reflexivity |]; split; [eexists; reflexivity |]; repeat split; auto
    | match goal with |- exists n, ?l = _ => exists (length l); reflexivity end ].
Qed.


(** X11: the calls of [handleUpload] are always a beginning of the
    sequence checksum, authorization, upload, record commit, status reset:
    no step is made twice or out of turn, and none is made after a step
    that was skipped. *)
Theorem handleUpload_calls_in_order (w : World State) :
  exists n,
    map step_of (calls (events (handleUpload env userData w))) =
      firstn n [ChecksumFailed; AuthorizationDenied; UploadFailed; OrphanedUpload;
                StatusResetFailed].
Proof. exact (proj2 (handleUpload_shape w)). Qed.

End ReportPageUpload.

Lemma handleUpload_without_file_witness :
  ReportPage.handleUpload (Samples.env_of Samples.all_well) Samples.amina MoreSamples.empty_handed =
    ([Toast "Aucun fichier sélectionné"
            "Veuillez sélectionner un fichier avant de l'envoyer" true],
     MoreSamples.empty_handed, Resolved tt).
Proof.
  exact (handleUpload_without_file (Samples.env_of Samples.all_well) Samples.amina
           MoreSamples.empty_handed eq_refl eq_refl).
Defined.

(* ================================================================== *)
(** * Further properties of the two workflows *)
(* ================================================================== *)

Section Workflows.
Variable env : Env.
Variable userData : JsVal.

Ltac report_paths w :=
  paths_keeping (ReportPage.handleUpload env userData w)
    ltac:(unfold ReportPage.handleUpload, ReportPage.upload_and_record,
            ReportPage.report_failure, ReportPage.setUploading).

Ltac form_paths formData w :=
  paths_keeping (ApplicationForm.onSubmit env userData formData w)
    ltac:(unfold ApplicationForm.onSubmit, ApplicationForm.post_upload_record,
            ApplicationForm.upload_each, ApplicationForm.upload_one,
            ApplicationForm.name_at, ApplicationForm.first_file,
            ApplicationForm.setIsFormLoading, ApplicationForm.setError,
            ApplicationForm.setShowErrorDialog).

(** [!r || !r.url] and [!r?.url] are the same test. *)
Lemma url_guards_agree (v : JsVal) :
  truthy v && truthy (get v "url") = truthy (get v "url").
Proof.
  destruct v as [| | b | n | s | fields]; try reflexivity.
  - now destruct b.
  - unfold truthy, get. now rewrite andb_false_r.
  - unfold truthy, get. now rewrite andb_false_r.
Qed.

Lemma report_not_authorized (w : World ReportPage.State) r :
  let run := ReportPage.handleUpload env userData w in
  In r (answers_at AuthorizationDenied (events run)) ->
  authorized r = false ->
  terminal (events run) = Failed AuthorizationDenied /\
  answers_at UploadFailed (events run) = [] /\
  record_writes (events run) = [] /\
  store (world run) = store w /\
  notifications (events run) =
    [Toast ReportPage.failure_title
       match r with
       | Resolved _ => ReportPage.no_url_message
       | Rejected e =>
           if String.eqb (err_message e) "" then ReportPage.failure_default
           else err_message e
       end true].
Proof.
  intros run. subst run. unfold events, world.
  report_paths w.
  all: intros Hev Hr; which_answer Hev.
  all: try (absurd_by Hr).
  all: try match goal with H : String.eqb _ _ = _ |- _ => rewrite H end.
  all: repeat split; reflexivity.
Qed.

Lemma form_not_authorized (formData : FormData) (w : World ApplicationForm.State) r :
  let run := ApplicationForm.onSubmit env userData formData w in
  In r (answers_at AuthorizationDenied (events run)) ->
  authorized r = false ->
  terminal (events run) = Failed AuthorizationDenied /\
  record_writes (events run) = [] /\
  store (world run) = store w /\
  (exists before key type size checksum,
     calls (events run) = (before ++ [GetSignedURL key type size checksum])%list /\
     exists folder name,
       key = "upload_mtym/" ++ folder ++ "/" ++ name /\
       notifications (events run) =
         [ErrorDialog match r with
                      | Resolved _ => Error ("Failed to get signed URL for " ++ name)
                      | Rejected e => e
                      end]).
Proof.
  intros run. subst run. unfold events, world.
  form_paths formData w.
  all: intros Hev Hr; which_answer Hev.
  all: try (unfold authorized in Hr; rewrite url_guards_agree in Hr; absurd_by Hr).
  all: split; [reflexivity |]; split; [reflexivity |]; split; [reflexivity |].
  all: match goal with
       | |- exists before key type size checksum, ?l = _ /\ _ => exists (removelast l)
       end.
  all: do 4 eexists; split; [reflexivity |].
  all: do 2 eexists; split; reflexivity.
Qed.

Lemma report_chain (w : World ReportPage.State) :
  let run := ReportPage.handleUpload env userData w in
  (forall u, In u (answers_at UploadFailed (events run)) ->
     exists a, answers_at AuthorizationDenied (events run) = [a] /\ authorized a = true) /\
  (forall p, In p (answers_at OrphanedUpload (events run)) ->
     exists u, answers_at UploadFailed (events run) = [u] /\ upload_ok u = true) /\
  (forall s, In s (answers_at StatusResetFailed (events run)) ->
     exists p, answers_at OrphanedUpload (events run) = [p] /\ status_200 p = true) /\
  (forall e, In (Rejected e) (answers_at OrphanedUpload (events run)) ->
     terminal (events run) = Failed OrphanedUpload /\
     notifications (events run) =
       [Toast ReportPage.failure_title
              (if String.eqb (err_message e) "" then ReportPage.failure_default
               else err_message e) true] /\
     answers_at StatusResetFailed (events run) = [] /\
     store (world run) = store w).
Proof.
  intros run. subst run. unfold events, world.
  report_paths w.
  all: split; [| split; [| split]].
  all: try (intros ? Hev; which_answer Hev; eexists; split; [reflexivity | by_tests]).
  all: intros ? Hev; which_answer Hev.
  all: try match goal with H : String.eqb _ _ = _ |- _ => rewrite H end.
  all: repeat split; reflexivity.
Qed.

Lemma report_provenance (w : World ReportPage.State) url f :
  let run := ReportPage.handleUpload env userData w in
  In (UploadFile url f) (calls (events run)) ->
  exists selected checksum v,
    ReportPage.selectedFile (ui w) = Some selected /\
    f = new_File selected
          ("report_" ++ generateFileName env (steps w) ++ "."
           ++ split_pop (file_name selected))
          (file_type selected) /\
    firstn 3 (calls (events run)) =
      [ComputeSHA256 f;
       GetSignedURL ("upload_mtym/"
                     ++ getUploadFolderName env (get userData "firstName")
                                            (get userData "lastName")
                     ++ "/" ++ file_name f)
                    (file_type f) (file_size f) checksum;
       UploadFile url f] /\
    answers_at ChecksumFailed (events run) = [Resolved checksum] /\
    answers_at AuthorizationDenied (events run) = [Resolved v] /\
    url = get v "url" /\
    truthy url = true.
Proof.
  intros run. subst run. unfold events, world.
  report_paths w.
  all: intros Hev; which_answer Hev.
  all: do 3 eexists; split; [reflexivity |].
  all: repeat split; try reflexivity.
  all: by_tests.
Qed.

Lemma form_shape (formData : FormData) (w : World ApplicationForm.State) :
  let run := ApplicationForm.onSubmit env userData formData w in
  match settled run with
  | Rejected e =>
      (nullish userData = true \/ schoolCertificate formData = []
       \/ grades formData = []) /\
      err_name e = "TypeError" /\
      events run = [] /\
      store (world run) = store w /\
      ApplicationForm.isFormLoading (ui (world run)) = true /\
      ApplicationForm.showErrorDialog (ui (world run)) =
        ApplicationForm.showErrorDialog (ui w) /\
      ApplicationForm.error (ui (world run)) = ApplicationForm.error (ui w)
  | Resolved _ =>
      nullish userData = false /\
      schoolCertificate formData <> [] /\
      grades formData <> [] /\
      ApplicationForm.isFormLoading (ui (world run)) = false /\
      ((notifications (events run) =
          [Toast ApplicationForm.created_title ApplicationForm.created_description false] /\
        ApplicationForm.showErrorDialog (ui (world run)) =
          ApplicationForm.showErrorDialog (ui w) /\
        ApplicationForm.error (ui (world run)) = ApplicationForm.error (ui w)) \/
       (exists e,
          notifications (events run) = [ErrorDialog e] /\
          ApplicationForm.showErrorDialog (ui (world run)) = true /\
          ApplicationForm.error (ui (world run)) = Some e))
  end.
Proof.
  intros run. subst run. unfold events, world, settled.
  form_paths formData w.
  all: repeat match goal with
       | H : ?l = _ :: _ |- context [?l <> []] => rewrite H
       end.
  all: repeat (split; auto; try discriminate).
  all: try (right; eexists; repeat split; reflexivity).
  all: try (left; repeat split; reflexivity).
Qed.

Lemma form_post (formData : FormData) (w : World ApplicationForm.State) :
  let run := ApplicationForm.onSubmit env userData formData w in
  (forall r, In r (answers_at PostFailed (events run)) ->
     status_200 r = false ->
     calls (events run) = [PostApplication (excludeFileFields env formData)] /\
     terminal (events run) = Failed PostFailed /\
     store (world run) = store w /\
     notifications (events run) =
       [ErrorDialog
          match r with
          | Resolved v =>
              Error (to_string (nullish_or (get v "message")
                                           (JStr "Post of application failed")))
          | Rejected e => e
          end]) /\
  (forall c, In c (calls (events run)) ->
     is_record_write c = true ->
     exists v,
       hd_error (calls (events run)) =
         Some (PostApplication (excludeFileFields env formData)) /\
       answers_at PostFailed (events run) = [Resolved v] /\
       is_num (get v "statusCode") 200 = true /\
       ((exists fields, c = PutApplication (get v "id") fields) \/
        c = UpdateApplicationStatus (get v "id")
              [("status",
                if is_str (get (get (get userData "application") "status") "status")
                          "NOTIFIED"
                then "UPDATED" else "PENDING")])).
Proof.
  intros run. subst run. unfold events, world.
  form_paths formData w.
  all: split.
  all: try (intros ? Hev Hr; which_answer Hev; try (absurd_by Hr);
            repeat split; reflexivity).
  all: intros ? Hev Hw; which_answer Hev; try discriminate Hw.
  all: eexists; split; [reflexivity |]; split; [reflexivity |]; split; [by_tests |].
  all: first [ left; eexists; reflexivity
             | right;
               try match goal with H : is_str _ _ = _ |- _ => rewrite H end;
               reflexivity ].
Qed.

Lemma form_chain (formData : FormData) (w : World ApplicationForm.State) :
  let run := ApplicationForm.onSubmit env userData formData w in
  (forall p, In p (answers_at OrphanedUpload (events run)) ->
     exists a0 a1 u0 u1,
       answers_at AuthorizationDenied (events run) = [a0; a1] /\
       authorized a0 = true /\ authorized a1 = true /\
       answers_at UploadFailed (events run) = [u0; u1] /\
       upload_ok u0 = true /\ upload_ok u1 = true) /\
  (forall u, In u (answers_at UploadFailed (events run)) ->
     upload_ok u = false ->
     exists before url f,
       calls (events run) = (before ++ [UploadFile url f])%list) /\
  (forall e, In (Rejected e) (answers_at OrphanedUpload (events run)) ->
     terminal (events run) = Failed OrphanedUpload /\
     notifications (events run) = [ErrorDialog e] /\
     answers_at StatusResetFailed (events run) = [] /\
     store (world run) = store w) /\
  (forall e, In (Rejected e) (answers_at StatusResetFailed (events run)) ->
     terminal (events run) = Failed StatusResetFailed /\
     notifications (events run) = [ErrorDialog e]).
Proof.
  intros run. subst run. unfold events, world.
  form_paths formData w.
  all: split; [| split; [| split]].
  all: try (intros ? Hev; which_answer Hev; repeat split; reflexivity).
  all: try (intros ? Hev; which_answer Hev; do 4 eexists;
            split; [reflexivity |];
            split; [unfold authorized; rewrite url_guards_agree; by_tests |];
            split; [unfold authorized; rewrite url_guards_agree; by_tests |];
            split; [reflexivity |]; split; by_tests).
  all: intros ? Hev Hr; which_answer Hev; try (absurd_by Hr).
  all: match goal with
       | |- exists before url f, ?l = _ => exists (removelast l)
       end.
  all: do 2 eexists; reflexivity.
Qed.

Lemma form_keys (formData : FormData) (w : World ApplicationForm.State)
    certificate certificates transcript transcripts :
  let run := ApplicationForm.onSubmit env userData formData w in
  schoolCertificate formData = certificate :: certificates ->
  grades formData = transcript :: transcripts ->
  let folder :=
    getUploadFolderName env (get userData "firstName") (get userData "lastName") in
  exists n,
    requested_keys (events run) =
      firstn n
        ["upload_mtym/" ++ folder ++ "/"
           ++ ("school_certificate_" ++ generateFileName env (steps w)) ++ "."
           ++ split_pop (file_name certificate);
         "upload_mtym/" ++ folder ++ "/"
           ++ ("grades_" ++ generateFileName env (S (steps w))) ++ "."
           ++ split_pop (file_name transcript)].
Proof.
  intros run. subst run. unfold events, world.
  form_paths formData w.
  all: intros Hc Hg; try discriminate Hc; try discriminate Hg.
  all: try (injection Hc as <- <-); try (injection Hg as <- <-).
  all: match goal with |- exists n, ?l = _ => exists (length l); reflexivity end.
Qed.

(** ** What the lemmas say, handler by handler *)

(** X12: when [getSignedURL] rejects, or answers with nothing or with no
    [url], the run stops there as [Failed AuthorizationDenied]: nothing is
    uploaded after it, no record is written, and the user is shown the
    no-URL message (report page) or the name of the file (form), or the
    error the call rejected with.  The two handlers test the answer
    differently ([!r || !r.url] and [!r?.url]) and stop on the same
    answers. *)
Theorem not_authorized_stops_the_run (r : outcome JsVal) :
  authorized r = false ->
  (forall w : World ReportPage.State,
     let run := ReportPage.handleUpload env userData w in
     In r (answers_at AuthorizationDenied (events run)) ->
     terminal (events run) = Failed AuthorizationDenied /\
     answers_at UploadFailed (events run) = [] /\
     record_writes (events run) = [] /\
     store (world run) = store w /\
     notifications (events run) =
       [Toast ReportPage.failure_title
          match r with
          | Resolved _ => ReportPage.no_url_message
          | Rejected e =>
              if String.eqb (err_message e) "" then ReportPage.failure_default
              else err_message e
          end true]) /\
  (forall (formData : FormData) (w : World ApplicationForm.State),
     let run := ApplicationForm.onSubmit env userData formData w in
     In r (answers_at AuthorizationDenied (events run)) ->
     terminal (events run) = Failed AuthorizationDenied /\
     record_writes (events run) = [] /\
     store (world run) = store w /\
     (exists before key type size checksum,
        calls (events run) = (before ++ [GetSignedURL key type size checksum])%list /\
        exists folder name,
          key = "upload_mtym/" ++ folder ++ "/" ++ name /\
          notifications (events run) =
            [ErrorDialog match r with
                         | Resolved _ => Error ("Failed to get signed URL for " ++ name)
                         | Rejected e => e
                         end])) /\
  (forall v, truthy v && truthy (get v "url") = truthy (get v "url")).
Proof.
  intros Hr. split; [| split].
  - intros w run H. now apply (report_not_authorized w r).
  - intros formData w run H. now apply (form_not_authorized formData w r).
  - apply url_guards_agree.
Qed.

(** X13: the file that [handleUpload] uploads is the chosen file under a
    new name, [report_<generated>.<last segment of the chosen name>], with
    the type, size and bytes of the chosen file; the three calls before
    any record is touched are the checksum of that file, the authorization
    for the key [upload_mtym/<folder>/<new name>] with that type, size and
    checksum, and the upload to the [url] of the authorization's answer. *)
Theorem handleUpload_uploads_what_was_authorized
    (w : World ReportPage.State) (url : JsVal) (f : File) :
  let run := ReportPage.handleUpload env userData w in
  In (UploadFile url f) (calls (events run)) ->
  exists selected checksum v,
    ReportPage.selectedFile (ui w) = Some selected /\
    f = new_File selected
          ("report_" ++ generateFileName env (steps w) ++ "."
           ++ split_pop (file_name selected))
          (file_type selected) /\
    firstn 3 (calls (events run)) =
      [ComputeSHA256 f;
       GetSignedURL ("upload_mtym/"
                     ++ getUploadFolderName env (get userData "firstName")
                                            (get userData "lastName")
                     ++ "/" ++ file_name f)
                    (file_type f) (file_size f) checksum;
       UploadFile url f] /\
    answers_at ChecksumFailed (events run) = [Resolved checksum] /\
    answers_at AuthorizationDenied (events run) = [Resolved v] /\
    url = get v "url" /\
    truthy url = true.
Proof. intros run H. exact (report_provenance w url f H). Qed.

(** X14: no step is taken unless the step before it succeeded.  On the
    report page an upload needs an authorization with a [url], a commit
    needs an upload that reported success, and a status reset needs a
    commit answered with 200.  In the form the commit needs both
    authorizations and both uploads to have succeeded. *)
Theorem each_step_needs_the_one_before :
  (forall w : World ReportPage.State,
     let run := ReportPage.handleUpload env userData w in
     (forall u, In u (answers_at UploadFailed (events run)) ->
        exists a, answers_at AuthorizationDenied (events run) = [a] /\
                  authorized a = true) /\
     (forall p, In p (answers_at OrphanedUpload (events run)) ->
        exists u, answers_at UploadFailed (events run) = [u] /\ upload_ok u = true) /\
     (forall s, In s (answers_at StatusResetFailed (events run)) ->
        exists p, answers_at OrphanedUpload (events run) = [p] /\ status_200 p = true)) /\
  (forall (formData : FormData) (w : World ApplicationForm.State),
     let run := ApplicationForm.onSubmit env userData formData w in
     forall p, In p (answers_at OrphanedUpload (events run)) ->
       exists a0 a1 u0 u1,
         answers_at AuthorizationDenied (events run) = [a0; a1] /\
         authorized a0 = true /\ authorized a1 = true /\
         answers_at UploadFailed (events run) = [u0; u1] /\
         upload_ok u0 = true /\ upload_ok u1 = true).
Proof.
  split.
  - intros w run. destruct (report_chain w) as (H1 & H2 & H3 & _). auto.
  - intros formData w run. exact (proj1 (form_chain formData w)).
Qed.

(** X15: in the form the files are handled one after the other, and an
    upload that fails is the last call of the run: the run ends with that
    upload and its failing answer, every upload before it had succeeded,
    and the dialog shows the validation error naming the file, or the
    error the upload rejected with.  When it is the first upload that
    fails, the run is the four calls post, checksum, authorization and
    upload of the school certificate: the second file is neither hashed
    nor authorized nor uploaded. *)
Theorem failed_upload_ends_the_form_run
    (formData : FormData) (w : World ApplicationForm.State) (u : outcome JsVal) :
  let run := ApplicationForm.onSubmit env userData formData w in
  In u (answers_at UploadFailed (events run)) ->
  upload_ok u = false ->
  exists before url f,
    exchanges (events run) = (before ++ [(UploadFile url f, u)])%list /\
    (forall c r, In (c, r) before -> step_of c = UploadFailed -> upload_ok r = true) /\
    notifications (events run) =
      [ErrorDialog
         match u with
         | Resolved _ =>
             Error ("S3 upload validation failed for " ++ file_name f
                    ++ " - unexpected response format")
         | Rejected e => e
         end] /\
    (hd_error (answers_at UploadFailed (events run)) = Some u ->
     forall certificate certificates,
       schoolCertificate formData = certificate :: certificates ->
       exists v checksum a,
         f = new_File certificate
               (("school_certificate_" ++ generateFileName env (steps w)) ++ "."
                ++ split_pop (file_name certificate))
               (file_type certificate) /\
         url = get a "url" /\
         before =
           [(PostApplication (excludeFileFields env formData), Resolved v);
            (ComputeSHA256 f, Resolved checksum);
            (GetSignedURL ("upload_mtym/"
                           ++ getUploadFolderName env (get userData "firstName")
                                                  (get userData "lastName")
                           ++ "/" ++ file_name f)
                          (file_type f) (file_size f) checksum, Resolved a)]).
Proof.
  intros run. subst run. unfold events, world.
  form_paths formData w.
  all: intros Hev Hr; which_answer Hev; try (absurd_by Hr).
  all: match goal with
       | |- exists before url f, ?l = _ /\ _ => exists (removelast l)
       end.
  all: do 2 eexists; split; [reflexivity |].
  all: split; [intros c r Hin Hstep; which_answer Hin; try discriminate Hstep; by_tests |].
  all: split; [reflexivity |].
  all: intros Hhd; simpl in Hhd; try (injection Hhd as Hhd; subst; absurd_by Hr).
  all: intros certificate certificates Hc.
  all: injection Hc as <- <-.
  all: do 3 eexists; repeat split; reflexivity.
Qed.

(** X16: a commit that rejects (the call throws) is a failure in both
    handlers: the run ends as [Failed OrphanedUpload], the user is shown
    the thrown error (on the report page its message, or the default text
    when it has none, and not the urgent message), no status call follows
    and nothing is written.  In the form a status update that rejects is
    a failure too, although the references are committed by then. *)
Theorem rejected_commit_is_shown (e : JsError) :
  (forall w : World ReportPage.State,
     let run := ReportPage.handleUpload env userData w in
     In (Rejected e) (answers_at OrphanedUpload (events run)) ->
     terminal (events run) = Failed OrphanedUpload /\
     notifications (events run) =
       [Toast ReportPage.failure_title
              (if String.eqb (err_message e) "" then ReportPage.failure_default
               else err_message e) true] /\
     answers_at StatusResetFailed (events run) = [] /\
     store (world run) = store w) /\
  (forall (formData : FormData) (w : World ApplicationForm.State),
     let run := ApplicationForm.onSubmit env userData formData w in
     (In (Rejected e) (answers_at OrphanedUpload (events run)) ->
      terminal (events run) = Failed OrphanedUpload /\
      notifications (events run) = [ErrorDialog e] /\
      answers_at StatusResetFailed (events run) = [] /\
      store (world run) = store w) /\
     (In (Rejected e) (answers_at StatusResetFailed (events run)) ->
      terminal (events run) = Failed StatusResetFailed /\
      notifications (events run) = [ErrorDialog e])).
Proof.
  split.
  - intros w run. exact (proj2 (proj2 (proj2 (report_chain w))) e).
  - intros formData w run.
    destruct (form_chain formData w) as (_ & _ & H3 & H4).
    split; [exact (H3 e) | exact (H4 e)].
Qed.

(** X17: on the report page a commit answered with a status other than
    200 ends the run as [Failed OrphanedUpload]; the one toast shown
    carries the urgent message, in which the owner's first and last name
    and a timestamp read from the clock occur; the status reset is not
    attempted and nothing is written. *)
Theorem report_page_names_the_owner_of_an_orphan
    (w : World ReportPage.State) (id : JsVal) (fields : list (string * string))
    (v : JsVal) :
  let run := ReportPage.handleUpload env userData w in
  In (Called (PutApplication id fields) (Resolved v)) (events run) ->
  is_num (get v "statusCode") 200 = false ->
  terminal (events run) = Failed OrphanedUpload /\
  record_writes (events run) = [PutApplication id fields] /\
  store (world run) = store w /\
  exists message n,
    notifications (events run) = [Toast ReportPage.failure_title message true] /\
    occurs_in (to_string (get userData "firstName") ++ " "
               ++ to_string (get userData "lastName")) message /\
    occurs_in (toISOString env n) message /\
    occurs_in ("(Status: " ++ to_string (get v "statusCode") ++ ")") message.
Proof.
  intros run H Hv.
  destruct (handleUpload_commit_refused env userData w id fields v H Hv)
    as (Ht & [n Hn] & Hw & Hs).
  split; [exact Ht |]. split; [exact Hw |]. split; [exact Hs |].
  eexists; exists n. split; [exact Hn |].
  destruct (urgent_message_identifies (get v "statusCode") (get userData "firstName")
              (get userData "lastName") (toISOString env n)) as [Hname Htime].
  split; [exact Hname |]. split; [exact Htime |].
  unfold ReportPage.urgent_message.
  exists "URGENT: File uploaded successfully to S3 but database update failed ",
         (". Your file is safe in S3. Please contact support immediately with your name: "
          ++ to_string (get userData "firstName") ++ " "
          ++ to_string (get userData "lastName")
          ++ " and this timestamp: " ++ toISOString env n).
  rewrite !append_assoc. reflexivity.
Qed.

(** X18: [onSubmit] rejects exactly when it fails before its [try]:
    [userData] is null or undefined, or one of the two file lists is
    empty.  Then nothing was called or shown and [isFormLoading] is left
    true.  Otherwise it resolves with [isFormLoading] false and exactly
    one notification: the success toast, the dialog cells as they were, or
    the error dialog, with [showErrorDialog] true and [error] the error
    shown. *)
Theorem onSubmit_settles (formData : FormData) (w : World ApplicationForm.State) :
  let run := ApplicationForm.onSubmit env userData formData w in
  match settled run with
  | Rejected e =>
      (nullish userData = true \/ schoolCertificate formData = []
       \/ grades formData = []) /\
      err_name e = "TypeError" /\
      events run = [] /\
      store (world run) = store w /\
      ApplicationForm.isFormLoading (ui (world run)) = true /\
      ApplicationForm.showErrorDialog (ui (world run)) =
        ApplicationForm.showErrorDialog (ui w) /\
      ApplicationForm.error (ui (world run)) = ApplicationForm.error (ui w)
  | Resolved _ =>
      nullish userData = false /\
      schoolCertificate formData <> [] /\
      grades formData <> [] /\
      ApplicationForm.isFormLoading (ui (world run)) = false /\
      ((notifications (events run) =
          [Toast ApplicationForm.created_title ApplicationForm.created_description false] /\
        ApplicationForm.showErrorDialog (ui (world run)) =
          ApplicationForm.showErrorDialog (ui w) /\
        ApplicationForm.error (ui (world run)) = ApplicationForm.error (ui w)) \/
       (exists e,
          notifications (events run) = [ErrorDialog e] /\
          ApplicationForm.showErrorDialog (ui (world run)) = true /\
          ApplicationForm.error (ui (world run)) = Some e))
  end.
Proof. exact (form_shape formData w). Qed.

(** X19: when [postApplication] is answered with a status other than 200,
    or rejects, [onSubmit] stops there: it is the only call of the run,
    nothing is written, and the dialog shows the [message] of the answer
    (the text 'Post of application failed' when the answer has none) or the
    error the call rejected with. *)
Theorem refused_post_ends_the_form_run
    (formData : FormData) (w : World ApplicationForm.State) (r : outcome JsVal) :
  let run := ApplicationForm.onSubmit env userData formData w in
  In r (answers_at PostFailed (events run)) ->
  status_200 r = false ->
  calls (events run) = [PostApplication (excludeFileFields env formData)] /\
  terminal (events run) = Failed PostFailed /\
  store (world run) = store w /\
  notifications (events run) =
    [ErrorDialog
       match r with
       | Resolved v =>
           Error (to_string (nullish_or (get v "message")
                                        (JStr "Post of application failed")))
       | Rejected e => e
       end].
Proof.
  intros run H Hr. exact (proj1 (form_post formData w) r H Hr).
Qed.

(** X20: every record call of [onSubmit] comes after a [postApplication]
    of the form without its files that was answered with 200, and targets
    the [id] of that answer, not the application of [userData]; the status
    it sets is UPDATED when the status in [userData] is NOTIFIED and
    PENDING otherwise. *)
Theorem onSubmit_writes_to_the_posted_application
    (formData : FormData) (w : World ApplicationForm.State) (c : call) :
  let run := ApplicationForm.onSubmit env userData formData w in
  In c (calls (events run)) ->
  is_record_write c = true ->
  exists v,
    hd_error (calls (events run)) =
      Some (PostApplication (excludeFileFields env formData)) /\
    answers_at PostFailed (events run) = [Resolved v] /\
    is_num (get v "statusCode") 200 = true /\
    ((exists fields, c = PutApplication (get v "id") fields) \/
     c = UpdateApplicationStatus (get v "id")
           [("status",
             if is_str (get (get (get userData "application") "status") "status")
                       "NOTIFIED"
             then "UPDATED" else "PENDING")]).
Proof.
  intros run H Hw. exact (proj2 (form_post formData w) c H Hw).
Qed.

(** X21: the keys for which [onSubmit] asks authorizations are, in this
    order and as far as the run gets,
    [upload_mtym/<folder>/school_certificate_<generated>.<ext>] and
    [upload_mtym/<folder>/grades_<generated>.<ext>], each [<ext>] the last
    segment of the name of the first file of its list, each [<generated>] a
    name of its own. *)
Theorem onSubmit_names_the_objects
    (formData : FormData) (w : World ApplicationForm.State)
    (certificate : File) (certificates : list File)
    (transcript : File) (transcripts : list File) :
  let run := ApplicationForm.onSubmit env userData formData w in
  schoolCertificate formData = certificate :: certificates ->
  grades formData = transcript :: transcripts ->
  let folder :=
    getUploadFolderName env (get userData "firstName") (get userData "lastName") in
  exists n,
    requested_keys (events run) =
      firstn n
        ["upload_mtym/" ++ folder ++ "/"
           ++ ("school_certificate_" ++ generateFileName env (steps w)) ++ "."
           ++ split_pop (file_name certificate);
         "upload_mtym/" ++ folder ++ "/"
           ++ ("grades_" ++ generateFileName env (S (steps w))) ++ "."
           ++ split_pop (file_name transcript)].
Proof.
  intros run Hc Hg. exact (form_keys formData w _ _ _ _ Hc Hg).
Qed.

End Workflows.

Section WorkflowWitnesses.
Import Samples MoreSamples.

Ltac found := vm_compute; repeat (first [left; reflexivity | right]).

Lemma not_authorized_stops_the_run_witness :
  let env := signing (Resolved JNull) (env_of all_well) in
  let run := ReportPage.handleUpload env amina report_world in
  authorized (Resolved JNull) = false /\
  In (Resolved JNull) (answers_at AuthorizationDenied (events run)) /\
  terminal (events run) = Failed AuthorizationDenied /\
  answers_at UploadFailed (events run) = [] /\
  record_writes (events run) = [] /\
  store (world run) = store report_world /\
  notifications (events run) =
    [Toast ReportPage.failure_title ReportPage.no_url_message true].
Proof.
  intros env run.
  assert (Hr : authorized (Resolved JNull) = false) by reflexivity.
  assert (H : In (Resolved JNull) (answers_at AuthorizationDenied (events run))) by found.
  split; [exact Hr |]. split; [exact H |].
  exact (proj1 (not_authorized_stops_the_run env amina (Resolved JNull) Hr) report_world H).
Defined.

Lemma handleUpload_uploads_what_was_authorized_witness :
  let run := ReportPage.handleUpload (env_of all_well) amina report_world in
  let url := JStr "https://s3.example/upload_mtym/Amina_Idrissi/report_g0.pdf" in
  let f := new_File pdf "report_g0.pdf" "application/pdf" in
  In (UploadFile url f) (calls (events run)) /\
  exists selected checksum v,
    ReportPage.selectedFile (ui report_world) = Some selected /\
    f = new_File selected
          ("report_" ++ generateFileName (env_of all_well) (steps report_world) ++ "."
           ++ split_pop (file_name selected))
          (file_type selected) /\
    firstn 3 (calls (events run)) =
      [ComputeSHA256 f;
       GetSignedURL ("upload_mtym/"
                     ++ getUploadFolderName (env_of all_well) (get amina "firstName")
                                            (get amina "lastName")
                     ++ "/" ++ file_name f)
                    (file_type f) (file_size f) checksum;
       UploadFile url f] /\
    answers_at ChecksumFailed (events run) = [Resolved checksum] /\
    answers_at AuthorizationDenied (events run) = [Resolved v] /\
    url = get v "url" /\
    truthy url = true.
Proof.
  intros run url f.
  assert (H : In (UploadFile url f) (calls (events run))) by found.
  split; [exact H |].
  exact (handleUpload_uploads_what_was_authorized (env_of all_well) amina report_world
           url f H).
Defined.

Lemma each_step_needs_the_one_before_witness :
  let run := ReportPage.handleUpload (env_of all_well) amina report_world in
  In (Resolved (answer 200)) (answers_at StatusResetFailed (events run)) /\
  exists p, answers_at OrphanedUpload (events run) = [p] /\ status_200 p = true.
Proof.
  intros run.
  assert (H : In (Resolved (answer 200)) (answers_at StatusResetFailed (events run)))
    by found.
  split; [exact H |].
  destruct (proj1 (each_step_needs_the_one_before (env_of all_well) amina) report_world)
    as (_ & _ & H3).
  exact (H3 _ H).
Defined.

Lemma failed_upload_ends_the_form_run_witness :
  let run := ApplicationForm.onSubmit (env_of upload_breaks) amina form form_world in
  let f := new_File pdf "school_certificate_g0.pdf" "application/pdf" in
  In network_error (answers_at UploadFailed (events run)) /\
  upload_ok network_error = false /\
  exchanges (events run) =
    [(PostApplication (JObj [("city", JStr "Rabat")]),
      Resolved (JObj [("statusCode", JNum 200); ("id", JNum 7)]));
     (ComputeSHA256 f, Resolved (JStr "q83vEjRWeJA="));
     (GetSignedURL "upload_mtym/Amina_Idrissi/school_certificate_g0.pdf"
                   "application/pdf" 4 (JStr "q83vEjRWeJA="),
      Resolved (JObj [("url", JStr "https://s3.example/upload_mtym/Amina_Idrissi/school_certificate_g0.pdf")]));
     (UploadFile (JStr "https://s3.example/upload_mtym/Amina_Idrissi/school_certificate_g0.pdf") f,
      network_error)] /\
  exists before url f',
    exchanges (events run) = (before ++ [(UploadFile url f', network_error)])%list /\
    notifications (events run) = [ErrorDialog (Error "Network Error")].
Proof.
  intros run f.
  assert (H : In network_error (answers_at UploadFailed (events run))) by found.
  split; [exact H |]. split; [reflexivity |]. split; [vm_compute; reflexivity |].
  destruct (failed_upload_ends_the_form_run (env_of upload_breaks) amina form form_world
              network_error H eq_refl) as (before & url & f' & E & _ & Hshown & _).
  exists before, url, f'. split; [exact E | exact Hshown].
Defined.

Lemma rejected_commit_is_shown_witness :
  let run := ReportPage.handleUpload (env_of commit_throws) amina report_world in
  In (Rejected (Error "Network Error")) (answers_at OrphanedUpload (events run)) /\
  terminal (events run) = Failed OrphanedUpload /\
  notifications (events run) = [Toast ReportPage.failure_title "Network Error" true] /\
  answers_at StatusResetFailed (events run) = [] /\
  store (world run) = store report_world.
Proof.
  intros run.
  assert (H : In (Rejected (Error "Network Error"))
                 (answers_at OrphanedUpload (events run))) by found.
  split; [exact H |].
  exact (proj1 (rejected_commit_is_shown (env_of commit_throws) amina
                  (Error "Network Error")) report_world H).
Defined.

Lemma report_page_names_the_owner_of_an_orphan_witness :
  let run := ReportPage.handleUpload (env_of commit_refused) amina report_world in
  let put :=
    PutApplication (JNum 7) [("reportUrl", "upload_mtym/Amina_Idrissi/report_g0.pdf")] in
  In (Called put (Resolved (answer 500))) (events run) /\
  is_num (get (answer 500) "statusCode") 200 = false /\
  terminal (events run) = Failed OrphanedUpload /\
  record_writes (events run) = [put] /\
  store (world run) = store report_world /\
  exists message n,
    notifications (events run) = [Toast ReportPage.failure_title message true] /\
    occurs_in (to_string (get amina "firstName") ++ " "
               ++ to_string (get amina "lastName")) message /\
    occurs_in (toISOString (env_of commit_refused) n) message /\
    occurs_in ("(Status: " ++ to_string (get (answer 500) "statusCode") ++ ")") message.
Proof.
  intros run put.
  assert (H : In (Called put (Resolved (answer 500))) (events run)) by found.
  split; [exact H |]. split; [reflexivity |].
  exact (report_page_names_the_owner_of_an_orphan (env_of commit_refused) amina
           report_world _ _ _ H eq_refl).
Defined.

Lemma refused_post_ends_the_form_run_witness :
  let refusal :=
    Resolved (JObj [("statusCode", JNum 422); ("message", JStr "Email already used")]) in
  let run :=
    ApplicationForm.onSubmit (posting refusal (env_of all_well)) amina form form_world in
  In refusal (answers_at PostFailed (events run)) /\
  status_200 refusal = false /\
  calls (events run) = [PostApplication (JObj [("city", JStr "Rabat")])] /\
  terminal (events run) = Failed PostFailed /\
  store (world run) = store form_world /\
  notifications (events run) = [ErrorDialog (Error "Email already used")].
Proof.
  intros refusal run.
  assert (H : In refusal (answers_at PostFailed (events run))) by found.
  split; [exact H |]. split; [reflexivity |].
  exact (refused_post_ends_the_form_run (posting refusal (env_of all_well)) amina form
           form_world refusal H eq_refl).
Defined.

Lemma onSubmit_writes_to_the_posted_application_witness :
  let run := ApplicationForm.onSubmit (env_of all_well) amina form form_world in
  let c := UpdateApplicationStatus (JNum 7) [("status", "PENDING")] in
  In c (calls (events run)) /\
  is_record_write c = true /\
  exists v,
    hd_error (calls (events run)) =
      Some (PostApplication (excludeFileFields (env_of all_well) form)) /\
    answers_at PostFailed (events run) = [Resolved v] /\
    is_num (get v "statusCode") 200 = true /\
    ((exists fields, c = PutApplication (get v "id") fields) \/
     c = UpdateApplicationStatus (get v "id")
           [("status",
             if is_str (get (get (get amina "application") "status") "status") "NOTIFIED"
             then "UPDATED" else "PENDING")]).
Proof.
  intros run c.
  assert (H : In c (calls (events run))) by found.
  split; [exact H |]. split; [reflexivity |].
  exact (onSubmit_writes_to_the_posted_application (env_of all_well) amina form
           form_world c H eq_refl).
Defined.

Lemma onSubmit_names_the_objects_witness :
  let run := ApplicationForm.onSubmit (env_of all_well) amina form form_world in
  schoolCertificate form = [pdf] /\
  grades form = [png] /\
  requested_keys (events run) =
    ["upload_mtym/Amina_Idrissi/school_certificate_g0.pdf";
     "upload_mtym/Amina_Idrissi/grades_g1.png"] /\
  exists n,
    requested_keys (events run) =
      firstn n
        ["upload_mtym/"
           ++ getUploadFolderName (env_of all_well) (get amina "firstName")
                                  (get amina "lastName")
           ++ "/" ++ ("school_certificate_" ++ generateFileName (env_of all_well)
                                                 (steps form_world))
           ++ "." ++ split_pop (file_name pdf);
         "upload_mtym/"
           ++ getUploadFolderName (env_of all_well) (get amina "firstName")
                                  (get amina "lastName")
           ++ "/" ++ ("grades_" ++ generateFileName (env_of all_well)
                                     (S (steps form_world)))
           ++ "." ++ split_pop (file_name png)].
Proof.
  intros run.
  split; [reflexivity |]. split; [reflexivity |]. split; [vm_compute; reflexivity |].
  exact (onSubmit_names_the_objects (env_of all_well) amina form form_world
           pdf [] png [] eq_refl eq_refl).
Defined.

End WorkflowWitnesses.

(* ================================================================== *)
(** * The last segment of a file name *)
(* ================================================================== *)

Section LastSegment.

Lemma has_dot_append (a b : string) : has_dot (a ++ b) = has_dot a || has_dot b.
Proof.
  induction a as [| c a IH]; [reflexivity |].
  rewrite append_cons. simpl. rewrite IH. now rewrite orb_assoc.
Qed.

Lemma split_pop_from_no_dot (seg s : string) :
  has_dot seg = false -> has_dot (split_pop_from seg s) = false.
Proof.
  revert seg. induction s as [| c s IH]; intros seg Hseg; simpl; [exact Hseg |].
  destruct (Ascii.eqb c ".") eqn:Hc.
  - now apply IH.
  - apply IH. rewrite has_dot_append, Hseg. simpl. now rewrite Hc.
Qed.

Lemma split_pop_from_without_dot (seg s : string) :
  has_dot s = false -> split_pop_from seg s = seg ++ s.
Proof.
  revert seg. induction s as [| c s IH]; intros seg Hs; simpl.
  - now rewrite append_empty_r.
  - simpl in Hs. apply orb_false_iff in Hs. destruct Hs as [Hc Hs].
    rewrite Hc, (IH _ Hs), append_assoc. reflexivity.
Qed.

Lemma split_pop_from_after_dot (seg base ext : string) :
  has_dot ext = false -> split_pop_from seg (base ++ "." ++ ext) = ext.
Proof.
  intros Hext. revert seg. induction base as [| c base IH]; intros seg.
  - change ("" ++ "." ++ ext) with (String "." ext). simpl.
    now rewrite split_pop_from_without_dot.
  - rewrite append_cons. simpl. destruct (Ascii.eqb c "."); apply IH.
Qed.

(** X22: [name.split('.').pop()], from which both handlers take the
    extension of the stored object: the result never holds a dot; a name
    without a dot is returned whole (so a chosen file 'devoir' is stored as
    'report_<generated>.devoir'); and of a name that ends in a dot and a
    dotless extension the result is that extension, whatever comes
    before. *)
Theorem split_pop_is_the_last_segment :
  (forall s, has_dot (split_pop s) = false) /\
  (forall s, has_dot s = false -> split_pop s = s) /\
  (forall base ext, has_dot ext = false -> split_pop (base ++ "." ++ ext) = ext).
Proof.
  unfold split_pop. split; [| split].
  - intros s. now apply split_pop_from_no_dot.
  - intros s Hs. now rewrite split_pop_from_without_dot.
  - intros base ext Hext. now apply split_pop_from_after_dot.
Qed.

Lemma split_pop_is_the_last_segment_witness :
  has_dot "devoir" = false /\
  split_pop "devoir" = "devoir" /\
  has_dot "pdf" = false /\
  split_pop ("devoir.maison" ++ "." ++ "pdf") = "pdf".
Proof.
  destruct split_pop_is_the_last_segment as (_ & Hwhole & Hext).
  split; [reflexivity |]. split; [exact (Hwhole "devoir" eq_refl) |].
  split; [reflexivity |]. exact (Hext "devoir.maison" "pdf" eq_refl).
Defined.

End LastSegment.

(* ================================================================== *)
(** * What the report page shows *)
(* ================================================================== *)

Section ReportPageView.
Import ReportPage.

(** X23: for a candidate without a submitted application (none, or one
    still DRAFT) the content effect sets the redirect content; with it the
    file picker is not rendered, the button is enabled unless an upload is
    running, and a click only navigates to the application page: it
    makes no call whatever the other cells hold. *)
Theorem unsubmitted_candidate_is_sent_to_the_form
    (env : Env) (userData : JsVal) (isLoading : bool) (w : World State) :
  hasSubmittedApplication userData = false ->
  let shown := snd (contentEffect userData isLoading (ui w)) in
  let w' := mkWorld shown (store w) (steps w) in
  get (content shown) "redirectToApplication" = JBool true /\
  get (content shown) "ctaLabel" = JStr "Accéder à ma candidature" /\
  showsPicker shown = false /\
  buttonDisabled shown = uploading (ui w) /\
  handleButtonClick env userData w' =
    ([RouterPush ("/" ++ locale userData ++ "/profile/application")], w', Resolved tt).
Proof.
  intros H shown w'. subst w' shown.
  unfold contentEffect, selectContent, showsPicker, buttonDisabled, handleButtonClick.
  unfold_monad. rewrite H. simpl.
  change (truthy (get (redirect_content _ _ _ true) "redirectToApplication")) with true.
  cbv iota. simpl.
  repeat split; try reflexivity.
  rewrite !andb_false_r. simpl. apply orb_false_r.
Qed.

Lemma unsubmitted_candidate_is_sent_to_the_form_witness :
  let shown := snd (contentEffect MoreSamples.newcomer true (ui Samples.report_world)) in
  let w' := mkWorld shown (store Samples.report_world) (steps Samples.report_world) in
  hasSubmittedApplication MoreSamples.newcomer = false /\
  handleButtonClick (Samples.env_of Samples.all_well) MoreSamples.newcomer w' =
    ([RouterPush "/fr/profile/application"], w', Resolved tt).
Proof.
  intros shown w'.
  assert (H : hasSubmittedApplication MoreSamples.newcomer = false) by reflexivity.
  split; [exact H |].
  destruct (unsubmitted_candidate_is_sent_to_the_form (Samples.env_of Samples.all_well)
              MoreSamples.newcomer true Samples.report_world H) as (_ & _ & _ & _ & E).
  exact E.
Defined.

(** A value that is not truthy is none of the status names. *)
Lemma falsy_is_not (v : JsVal) (s : string) :
  truthy v = false -> s <> "" -> is_str v s = false.
Proof.
  intros Hv Hs. destruct v as [| | b | n | t | fs]; try reflexivity.
  unfold truthy in Hv. apply negb_false_iff, String.eqb_eq in Hv.
  subst t. unfold is_str. apply String.eqb_neq. congruence.
Qed.

(** X24: while applications are closed, a candidate with a submitted
    application is offered no upload after the content effect: the picker
    is not rendered and the button is disabled.  For a report whose status
    is VALID the content takes no account of the closing: the title says
    the work was approved and the label stays the update label.  In every
    other case the label is 'Soumission fermée', under the title of the
    case (no report, report not approved, report under review). *)
Theorem closed_page_offers_no_upload
    (userData : JsVal) (isLoading : bool) (st : State) :
  hasSubmittedApplication userData = true ->
  truthy (isApplicationsOpen st) = false ->
  let shown := snd (contentEffect userData isLoading st) in
  let validated :=
    truthy (get (get userData "application") "reportUrl")
    && is_str (get (get (get userData "application") "status") "reportStatus") "VALID" in
  showsPicker shown = false /\
  buttonDisabled shown = true /\
  get (content shown) "ctaLabel" =
    JStr (if validated then update_label else closed_label) /\
  get (content shown) "title" =
    JStr (if validated then "Votre travail a été approuvé"
          else if negb (truthy (get (get userData "application") "reportUrl"))
          then "Les soumissions des devoirs sont fermés"
          else if is_str (get (get (get userData "application") "status") "reportStatus")
                         "NOT_VALID"
          then "Votre travail n'a pas été approuvé"
          else "Votre devoir maison est en cours d'examen").
Proof.
  intros Hsub Hclosed shown validated. subst shown validated.
  unfold contentEffect, selectContent, showsPicker, buttonDisabled.
  rewrite Hsub. simpl. rewrite Hclosed. simpl.
  destruct (truthy (get (get userData "application") "reportUrl")); simpl.
  - destruct (truthy (get (get (get userData "application") "status") "reportStatus"))
      eqn:Hrs.
    + destruct (is_str (get (get (get userData "application") "status") "reportStatus")
                       "VALID") eqn:Hv.
      * repeat split; reflexivity.
      * destruct (is_str _ "NOT_VALID"); repeat split; reflexivity.
    + rewrite !(falsy_is_not _ _ Hrs) by discriminate.
      change (is_str (JStr "PENDING") "VALID") with false.
      change (is_str (JStr "PENDING") "NOT_VALID") with false.
      repeat split; reflexivity.
  - repeat split; reflexivity.
Qed.

Lemma closed_page_offers_no_upload_witness :
  let closed :=
    mkState JUndefined None false (JBool false) false in
  let shown := snd (contentEffect Samples.amina false closed) in
  hasSubmittedApplication Samples.amina = true /\
  truthy (isApplicationsOpen closed) = false /\
  buttonDisabled shown = true /\
  get (content shown) "ctaLabel" = JStr update_label.
Proof.
  intros closed shown.
  assert (H : hasSubmittedApplication Samples.amina = true) by reflexivity.
  assert (Hc : truthy (isApplicationsOpen closed) = false) by reflexivity.
  destruct (closed_page_offers_no_upload Samples.amina false closed H Hc)
    as (_ & Hb & Hlabel & _).
  split; [exact H |]. split; [exact Hc |]. split; [exact Hb | exact Hlabel].
Defined.

(** X25: the button is enabled without a redirect only when applications
    are open, a file is chosen and no upload is running; a click is then a
    run of [handleUpload] that passes both of its guards: its first call is
    the checksum of the chosen file under its new name (for a [userData]
    that is an object). *)
Theorem enabled_button_starts_the_upload
    (env : Env) (userData : JsVal) (w : World State) :
  buttonDisabled (ui w) = false ->
  truthy (get (content (ui w)) "redirectToApplication") = false ->
  nullish userData = false ->
  exists selected,
    selectedFile (ui w) = Some selected /\
    truthy (isApplicationsOpen (ui w)) = true /\
    uploading (ui w) = false /\
    handleButtonClick env userData w = handleUpload env userData w /\
    hd_error (calls (events (handleButtonClick env userData w))) =
      Some (ComputeSHA256
              (new_File selected
                 ("report_" ++ generateFileName env (steps w) ++ "."
                  ++ split_pop (file_name selected))
                 (file_type selected))).
Proof.
  unfold buttonDisabled. intros Hb Hr Hnull. rewrite Hr in Hb. simpl in Hb.
  destruct (truthy (isApplicationsOpen (ui w))) eqn:Hopen; [| discriminate].
  destruct (uploading (ui w)) eqn:Hup; [discriminate |].
  destruct (selectedFile (ui w)) as [selected |] eqn:Hsel; [| discriminate].
  exists selected.
  assert (Hsame : handleButtonClick env userData w = handleUpload env userData w).
  { unfold handleButtonClick. unfold_monad. simpl. rewrite Hr, Hopen.
    now destruct (handleUpload env userData w) as [[? ?] ?]. }
  split; [reflexivity |]. split; [reflexivity |]. split; [reflexivity |].
  split; [exact Hsame |]. rewrite Hsame. clear Hsame Hb Hup Hr.
  revert Hopen Hsel Hnull. unfold events.
  paths_keeping (handleUpload env userData w)
    ltac:(unfold handleUpload, upload_and_record, report_failure, setUploading).
  all: intros Hopen Hsel Hnull; try congruence.
  all: try (rewrite Hopen in *; discriminate).
  all: injection Hsel as <-; reflexivity.
Qed.

Lemma enabled_button_starts_the_upload_witness :
  buttonDisabled (ui Samples.report_world) = false /\
  truthy (get (content (ui Samples.report_world)) "redirectToApplication") = false /\
  nullish Samples.amina = false /\
  hd_error (calls (events (handleButtonClick (Samples.env_of Samples.all_well)
                             Samples.amina Samples.report_world))) =
    Some (ComputeSHA256 (new_File Samples.pdf "report_g0.pdf" "application/pdf")).
Proof.
  assert (Hb : buttonDisabled (ui Samples.report_world) = false) by reflexivity.
  assert (Hr : truthy (get (content (ui Samples.report_world)) "redirectToApplication")
               = false) by reflexivity.
  assert (Hn : nullish Samples.amina = false) by reflexivity.
  destruct (enabled_button_starts_the_upload (Samples.env_of Samples.all_well)
              Samples.amina Samples.report_world Hb Hr Hn)
    as (selected & Hsel & _ & _ & _ & E).
  split; [exact Hb |]. split; [exact Hr |]. split; [exact Hn |].
  rewrite E. injection Hsel as <-. vm_compute. reflexivity.
Defined.

(** X26: a report status that is missing or empty is taken as pending by
    the content effect and by the text of the badge ('EN ATTENTE'), but
    not by its colour: [getBadgeClassname] gives it the gray of an unknown
    status, not the yellow of PENDING. *)
Theorem missing_report_status_reads_as_pending
    (userData open : JsVal) :
  let reportStatus := get (get (get userData "application") "status") "reportStatus" in
  hasSubmittedApplication userData = true ->
  truthy (get (get userData "application") "reportUrl") = true ->
  truthy reportStatus = false ->
  get (selectContent userData open) "title" = JStr "Votre devoir maison est en cours d'examen" /\
  badgeLabel reportStatus = "EN ATTENTE" /\
  badgeLabel (JStr "PENDING") = "EN ATTENTE" /\
  getBadgeClassname reportStatus = "bg-gray-300 text-black" /\
  getBadgeClassname (JStr "PENDING") = "bg-yellow-200 text-black".
Proof.
  intros reportStatus Hsub Hreport Hmissing. subst reportStatus.
  assert (Hnot : forall s, s <> "" ->
            is_str (get (get (get userData "application") "status") "reportStatus") s
            = false).
  { intros s Hs.
    destruct (get (get (get userData "application") "status") "reportStatus")
      as [| | b | n | t | fs]; try reflexivity.
    unfold truthy in Hmissing. apply negb_false_iff, String.eqb_eq in Hmissing.
    subst t. unfold is_str. apply String.eqb_neq. congruence. }
  unfold selectContent, badgeLabel, getBadgeClassname.
  rewrite Hsub, Hreport, Hmissing. simpl.
  rewrite !Hnot by discriminate.
  destruct (truthy open); repeat split; reflexivity.
Qed.

Lemma missing_report_status_reads_as_pending_witness :
  let candidate :=
    JObj [("application",
           JObj [("id", JNum 7);
                 ("reportUrl", JStr "upload_mtym/A_B/report_1.pdf");
                 ("status", JObj [("status", JStr "PENDING")])])] in
  hasSubmittedApplication candidate = true /\
  getBadgeClassname (get (get (get candidate "application") "status") "reportStatus")
    = "bg-gray-300 text-black" /\
  get (selectContent candidate (JBool true)) "ctaLabel" = JStr update_label.
Proof.
  intros candidate.
  assert (H : hasSubmittedApplication candidate = true) by reflexivity.
  destruct (missing_report_status_reads_as_pending candidate (JBool true) H eq_refl eq_refl)
    as (_ & _ & _ & Hgray & _).
  split; [exact H |]. split; [exact Hgray | reflexivity].
Defined.

End ReportPageView.

(* ================================================================== *)
(** * Saving the form for later *)
(* ================================================================== *)

Section Saving.
Import ApplicationForm.
Variable env : Env.
Variable userData : JsVal.

Lemma onSave_run (application : FormData) (w : World State) :
  let run := onSave env userData application w in
  let r := respond env (steps w) (PostApplication (excludeFileFields env application)) in
  settled run = Resolved tt /\
  calls (events run) = [PostApplication (excludeFileFields env application)] /\
  store (world run) = store w /\
  isFormLoading (ui (world run)) = isFormLoading (ui w) /\
  (if status_200 r then
     events run =
       [Called (PostApplication (excludeFileFields env application)) r;
        Toast "Application saved successfully" created_description false;
        RouterPush ("/" ++ locale userData ++ "/profile/application");
        ReloadAfter 1000] /\
     showErrorDialog (ui (world run)) = showErrorDialog (ui w) /\
     error (ui (world run)) = error (ui w)
   else
     let shown :=
       match r with
       | Resolved v =>
           Error (to_string (nullish_or (get v "message")
                                        (JStr "Post of application failed")))
       | Rejected e => e
       end in
     notifications (events run) = [ErrorDialog shown] /\
     showErrorDialog (ui (world run)) = true /\
     error (ui (world run)) = Some shown).
Proof.
  intros run r. subst run r. unfold events, world, settled, status_200.
  unfold onSave, setError, setShowErrorDialog. unfold_monad. simpl.
  destruct (respond env (steps w) (PostApplication (excludeFileFields env application)))
    as [v | e]; simpl.
  - destruct (is_num (get v "statusCode") 200); simpl; repeat split; reflexivity.
  - repeat split; reflexivity.
Qed.

(** X27: [onSave] posts the form without its files and does nothing else
    outside: it makes that one call, never rejects, writes no record and
    leaves [isFormLoading] alone.  On an answer of 200 it shows the saved
    toast and goes to the profile; otherwise it opens the error dialog on
    the [message] of the answer (the text 'Post of application failed'
    when it has none) or on the error the call rejected with. *)
Theorem onSave_only_posts (application : FormData) (w : World State) :
  let run := onSave env userData application w in
  let r := respond env (steps w) (PostApplication (excludeFileFields env application)) in
  settled run = Resolved tt /\
  calls (events run) = [PostApplication (excludeFileFields env application)] /\
  store (world run) = store w /\
  isFormLoading (ui (world run)) = isFormLoading (ui w) /\
  (if status_200 r then
     events run =
       [Called (PostApplication (excludeFileFields env application)) r;
        Toast "Application saved successfully" created_description false;
        RouterPush ("/" ++ locale userData ++ "/profile/application");
        ReloadAfter 1000] /\
     showErrorDialog (ui (world run)) = showErrorDialog (ui w) /\
     error (ui (world run)) = error (ui w)
   else
     let shown :=
       match r with
       | Resolved v =>
           Error (to_string (nullish_or (get v "message")
                                        (JStr "Post of application failed")))
       | Rejected e => e
       end in
     notifications (events run) = [ErrorDialog shown] /\
     showErrorDialog (ui (world run)) = true /\
     error (ui (world run)) = Some shown).
Proof. exact (onSave_run application w). Qed.

(** X28: neither [onSubmit] nor [onSave] ever asks whether applications
    are open, and [onError] calls no one: the form has no gate of its
    own. *)
Theorem form_handlers_never_ask_whether_open
    (formData : FormData) (w : World State) :
  ~ In GetApplicationsOpenStatus (calls (events (onSubmit env userData formData w))) /\
  ~ In GetApplicationsOpenStatus (calls (events (onSave env userData formData w))) /\
  onError w =
    ([Toast "The form is invalid" "Not all required fields have been filled in." true],
     w, Resolved tt).
Proof.
  split; [apply onSubmit_never_checks_open |]. split; [| reflexivity].
  destruct (onSave_run formData w) as (_ & E & _). rewrite E.
  intros [H | []]. discriminate H.
Qed.

End Saving.
